(** * The skills widget of the portfolio site: [assets/js/skills-manager.js]

    A shallow embedding of the [SkillsManager] class and of the parts of the
    browser it talks to ([fetch], [localStorage], [document], [console],
    [JSON]), followed by the properties of the data pipeline.

    Conventions of the embedding.
    - JavaScript numbers are the mathematical integers [Z]; this is exact for
      the safe integers, which is where levels, years and counts live.
    - JavaScript strings are [string]s of bytes (UTF-8), so an emoji icon is a
      few bytes long.
    - [this.skillsData] holds a JSON value.  The methods that look inside it
      ([renderSkills], [calculateAndDisplayStats], [updateSkillLevel]) read
      it through [asSkillsData], the typed view of a document shaped as
      [{ skills: { category: [record, ...], ... } }].
    - [skills[category]] is a property lookup: it finds the own keys of the
      object and, behind them, the names inherited from [Object.prototype].
    - A method is a function from the world (the instance, the store, the
      page, the console) to how the call ends: normally with a result and a
      new world, or by throwing.  The animation of the page (observers,
      timers, animation frames) is not part of the embedding. *)

From Stdlib Require Import ZArith List String Ascii Bool Lia.
From Stdlib Require Import DecimalString DecimalZ DecimalPos DecimalN DecimalFacts.
Import ListNotations.

#[local] Set Warnings "-register-all".
#[local] Open Scope list_scope.
#[local] Open Scope string_scope.
#[local] Open Scope Z_scope.

(* ================================================================= *)
(** * Strings *)

(** The characters that cannot be written inside a literal. *)
Definition dquote : ascii := "034"%char.
Definition backslash : ascii := "092"%char.
Definition dq : string := String dquote EmptyString.
Definition nl : string := String "010"%char EmptyString.

Fixpoint indent (n : nat) : string :=
  match n with
  | O => EmptyString
  | S n' => String " " (indent n')
  end.

(** A template literal, piece by piece. *)
Definition template (pieces : list string) : string :=
  String.concat EmptyString pieces.

(** [String.prototype.includes]. *)
Fixpoint includes (needle hay : string) : bool :=
  prefix needle hay ||
  match hay with
  | EmptyString => false
  | String _ rest => includes needle rest
  end.

(** Number to string conversion of an integer, as a template literal or
    [JSON.stringify] prints it. *)
Definition show_Z (z : Z) : string := NilZero.string_of_int (Z.to_int z).

(* ================================================================= *)
(** * JSON *)

Module JSON.

(** JSON values.  An object keeps its members in insertion order. *)
Inductive value : Type :=
| JNull
| JBool (b : bool)
| JNum (z : Z)
| JStr (s : string)
| JArr (elements : list value)
| JObj (members : list (string * value)).

(** ToBoolean on a JSON value. *)
Definition truthy (v : value) : bool :=
  match v with
  | JNull => false
  | JBool b => b
  | JNum z => negb (z =? 0)
  | JStr s => negb (s =? EmptyString)%string
  | JArr _ | JObj _ => true
  end.

(** ** [JSON.stringify] *)

Definition hex_digit (n : N) : ascii :=
  if (n <? 10)%N then ascii_of_N (48 + n) else ascii_of_N (87 + n).

(** One character of a string, quoted as [JSON.stringify] quotes it. *)
Definition escape_char (c : ascii) : string :=
  let n := N_of_ascii c in
  if Ascii.eqb c dquote then String backslash dq
  else if Ascii.eqb c backslash then String backslash (String backslash EmptyString)
  else if (n =? 8)%N then String backslash "b"
  else if (n =? 9)%N then String backslash "t"
  else if (n =? 10)%N then String backslash "n"
  else if (n =? 12)%N then String backslash "f"
  else if (n =? 13)%N then String backslash "r"
  else if (n <? 32)%N then
    String backslash
      (String "u" (String "0" (String "0"
        (String (hex_digit (n / 16)) (String (hex_digit (n mod 16)) EmptyString)))))
  else String c EmptyString.

Fixpoint escape (s : string) : string :=
  match s with
  | EmptyString => EmptyString
  | String c rest => escape_char c ++ escape rest
  end.

Definition quote (s : string) : string := dq ++ escape s ++ dq.

(** The items separated by commas, then the closing bracket. *)
Fixpoint join (closing : string) (items : list string) : string :=
  match items with
  | [] => closing
  | [x] => x ++ closing
  | x :: rest => x ++ "," ++ join closing rest
  end.

Fixpoint print (v : value) : string :=
  match v with
  | JNull => "null"
  | JBool true => "true"
  | JBool false => "false"
  | JNum z => show_Z z
  | JStr s => quote s
  | JArr elements => "[" ++ join "]" (map print elements)
  | JObj members =>
      "{" ++ join "}" (map (fun kv : string * value => let (k, x) := kv in quote k ++ ":" ++ print x)
                      members)
  end.

(** One member of an object, as [print] writes it. *)
Definition print_member (kv : string * value) : string :=
  let (k, x) := kv in quote k ++ ":" ++ print x.

Definition stringify (v : value) : string := print v.

(** ** [JSON.parse] *)

Definition is_ws (c : ascii) : bool :=
  let n := N_of_ascii c in
  (n =? 32)%N || (n =? 9)%N || (n =? 10)%N || (n =? 13)%N.

Definition is_digit (c : ascii) : bool :=
  let n := N_of_ascii c in (48 <=? n)%N && (n <=? 57)%N.

Fixpoint skip_ws (s : string) : string :=
  match s with
  | String c rest => if is_ws c then skip_ws rest else s
  | EmptyString => s
  end.

Definition hex_value (c : ascii) : option N :=
  let n := N_of_ascii c in
  if (48 <=? n)%N && (n <=? 57)%N then Some (n - 48)%N
  else if (97 <=? n)%N && (n <=? 102)%N then Some (n - 87)%N
  else if (65 <=? n)%N && (n <=? 70)%N then Some (n - 55)%N
  else None.

(** The bytes of the code unit of a [\uXXXX] escape (UTF-8; a surrogate is
    encoded on its own). *)
Definition code_unit_bytes (n : N) : string :=
  if (n <? 128)%N then String (ascii_of_N n) EmptyString
  else if (n <? 2048)%N then
    String (ascii_of_N (192 + n / 64)) (String (ascii_of_N (128 + n mod 64)) EmptyString)
  else
    String (ascii_of_N (224 + n / 4096))
      (String (ascii_of_N (128 + (n / 64) mod 64))
        (String (ascii_of_N (128 + n mod 64)) EmptyString)).

(** The characters of a string literal after its opening quote: the string
    and the text after the closing quote. *)
Fixpoint parse_chars (s : string) : option (string * string) :=
  match s with
  | EmptyString => None
  | String c rest =>
      if Ascii.eqb c dquote then Some (EmptyString, rest)
      else if Ascii.eqb c backslash then
        match rest with
        | String e rest1 =>
            let simple (x : ascii) :=
              match parse_chars rest1 with
              | Some (t, r) => Some (String x t, r)
              | None => None
              end in
            if Ascii.eqb e dquote then simple dquote
            else if Ascii.eqb e backslash then simple backslash
            else if Ascii.eqb e "/" then simple "/"%char
            else if Ascii.eqb e "b" then simple "008"%char
            else if Ascii.eqb e "f" then simple "012"%char
            else if Ascii.eqb e "n" then simple "010"%char
            else if Ascii.eqb e "r" then simple "013"%char
            else if Ascii.eqb e "t" then simple "009"%char
            else if Ascii.eqb e "u" then
              match rest1 with
              | String h1 (String h2 (String h3 (String h4 rest2))) =>
                  match hex_value h1, hex_value h2, hex_value h3, hex_value h4 with
                  | Some a, Some b, Some c', Some d =>
                      match parse_chars rest2 with
                      | Some (t, r) =>
                          Some (code_unit_bytes (((a * 16 + b) * 16 + c') * 16 + d) ++ t, r)
                      | None => None
                      end
                  | _, _, _, _ => None
                  end
              | _ => None
              end
            else None
        | EmptyString => None
        end
      else if (N_of_ascii c <? 32)%N then None
      else
        match parse_chars rest with
        | Some (t, r) => Some (String c t, r)
        | None => None
        end
  end.

Fixpoint span_digits (s : string) : string * string :=
  match s with
  | String c rest =>
      if is_digit c then let (ds, r) := span_digits rest in (String c ds, r)
      else (EmptyString, s)
  | EmptyString => (EmptyString, EmptyString)
  end.

(** The character after a number literal starts a fraction or an exponent. *)
Definition continues_number (s : string) : bool :=
  match s with
  | String c _ => Ascii.eqb c "." || Ascii.eqb c "e" || Ascii.eqb c "E"
  | EmptyString => false
  end.

(** The digits of a number literal, after its sign.  Only integer literals
    have a value in this model: a literal with a fraction or an exponent is
    not read. *)
Definition parse_digits (negative : bool) (s : string) : option (Z * string) :=
  let (ds, rest) := span_digits s in
  match ds with
  | EmptyString => None
  | String first more =>
      if Ascii.eqb first "0" && negb (more =? EmptyString)%string then None
      else if continues_number rest then None
      else
        match NilEmpty.uint_of_string ds with
        | Some u =>
            let n := Z.of_N (N.of_uint u) in
            Some (if negative then - n else n, rest)
        | None => None
        end
  end.

Definition parse_number (s : string) : option (Z * string) :=
  match s with
  | String c rest => if Ascii.eqb c "-" then parse_digits true rest else parse_digits false s
  | EmptyString => None
  end.

Fixpoint expect (word s : string) : option string :=
  match word, s with
  | EmptyString, _ => Some s
  | String a word', String b s' => if Ascii.eqb a b then expect word' s' else None
  | String _ _, EmptyString => None
  end.

(** Defining a member of an object: a repeated key keeps its place and takes
    the later value. *)
Fixpoint obj_set (members : list (string * value)) (k : string) (x : value)
  : list (string * value) :=
  match members with
  | [] => [(k, x)]
  | (k', x') :: rest =>
      if (k' =? k)%string then (k', x) :: rest else (k', x') :: obj_set rest k x
  end.

Definition obj_of_members (parsed : list (string * value)) : list (string * value) :=
  fold_left (fun acc kv => obj_set acc (fst kv) (snd kv)) parsed [].

(** After white space, the character [c]: the text after it. *)
Definition peek (c : ascii) (s : string) : option string :=
  match skip_ws s with
  | String c' rest => if Ascii.eqb c' c then Some rest else None
  | EmptyString => None
  end.

(** Recursive descent; [fuel] bounds the depth of the calls, which the length
    of the text bounds. *)
Fixpoint parse_value (fuel : nat) (s : string) {struct fuel} : option (value * string) :=
  match fuel with
  | O => None
  | S fuel' =>
      match skip_ws s with
      | EmptyString => None
      | String c rest =>
          if Ascii.eqb c "n" then option_map (pair JNull) (expect "ull" rest)
          else if Ascii.eqb c "t" then option_map (pair (JBool true)) (expect "rue" rest)
          else if Ascii.eqb c "f" then option_map (pair (JBool false)) (expect "alse" rest)
          else if Ascii.eqb c dquote then
            match parse_chars rest with
            | Some (t, r) => Some (JStr t, r)
            | None => None
            end
          else if Ascii.eqb c "[" then
            match peek "]" rest with
            | Some r => Some (JArr [], r)
            | None =>
                match parse_elements fuel' rest with
                | Some (l, r) => Some (JArr l, r)
                | None => None
                end
            end
          else if Ascii.eqb c "{" then
            match peek "}" rest with
            | Some r => Some (JObj [], r)
            | None =>
                match parse_members fuel' rest with
                | Some (l, r) => Some (JObj (obj_of_members l), r)
                | None => None
                end
            end
          else
            match parse_number (String c rest) with
            | Some (z, r) => Some (JNum z, r)
            | None => None
            end
      end
  end

with parse_elements (fuel : nat) (s : string) {struct fuel} : option (list value * string) :=
  match fuel with
  | O => None
  | S fuel' =>
      match parse_value fuel' s with
      | Some (x, r) =>
          match peek "," r with
          | Some r' =>
              match parse_elements fuel' r' with
              | Some (l, r'') => Some (x :: l, r'')
              | None => None
              end
          | None =>
              match peek "]" r with
              | Some r' => Some ([x], r')
              | None => None
              end
          end
      | None => None
      end
  end

with parse_members (fuel : nat) (s : string) {struct fuel}
  : option (list (string * value) * string) :=
  match fuel with
  | O => None
  | S fuel' =>
      match peek dquote s with
      | Some rest =>
          match parse_chars rest with
          | Some (k, r) =>
              match peek ":" r with
              | Some r1 =>
                  match parse_value fuel' r1 with
                  | Some (x, r2) =>
                      match peek "," r2 with
                      | Some r3 =>
                          match parse_members fuel' r3 with
                          | Some (l, r4) => Some ((k, x) :: l, r4)
                          | None => None
                          end
                      | None =>
                          match peek "}" r2 with
                          | Some r3 => Some ([(k, x)], r3)
                          | None => None
                          end
                      end
                  | None => None
                  end
              | None => None
              end
          | None => None
          end
      | None => None
      end
  end.

(** The keys of an object are pairwise different. *)
Fixpoint distinct (keys : list string) : bool :=
  match keys with
  | [] => true
  | k :: rest => negb (existsb (String.eqb k) rest) && distinct rest
  end.

(** The values that are JavaScript values: no object holds a key twice. *)
Fixpoint wf (v : value) : bool :=
  match v with
  | JArr elements => forallb wf elements
  | JObj members =>
      distinct (map fst members)
      && forallb (fun kv : string * value => let (_, x) := kv in wf x) members
  | _ => true
  end.

(** [JSON.parse]: [None] stands for the [SyntaxError] it throws. *)
Definition parse (text : string) : option value :=
  match parse_value (S (String.length text)) text with
  | Some (v, rest) =>
      match skip_ws rest with
      | EmptyString => Some v
      | String _ _ => None
      end
  | None => None
  end.

End JSON.

(* ================================================================= *)
(** * The data model *)

(** One skill: [{ name, level, icon, years?, description? }]. *)
Record SkillRecord : Type := {
  name : string;
  level : Z;
  icon : string;
  years : option Z;
  description : option string
}.

(** The object under [skills]: category key to array of records, in
    insertion order. *)
Definition SkillCategorySet : Type := list (string * list SkillRecord).

(** The document: [{ skills: { ... } }]. *)
Record SkillsData : Type := { skills : SkillCategorySet }.

(** ** The document as a JSON value, and back *)

Definition record_toJSON (r : SkillRecord) : JSON.value :=
  JSON.JObj
    ([("name", JSON.JStr (name r)); ("level", JSON.JNum (level r));
      ("icon", JSON.JStr (icon r))]
     ++ match years r with
        | Some y => [("years", JSON.JNum y)]
        | None => []
        end
     ++ match description r with
        | Some d => [("description", JSON.JStr d)]
        | None => []
        end)%list.

Definition category_toJSON (c : string * list SkillRecord) : string * JSON.value :=
  (fst c, JSON.JArr (map record_toJSON (snd c))).

Definition toJSON (d : SkillsData) : JSON.value :=
  JSON.JObj [("skills", JSON.JObj (map category_toJSON (skills d)))].

Definition asSkillRecord (v : JSON.value) : option SkillRecord :=
  match v with
  | JSON.JObj ((k1, JSON.JStr n) :: (k2, JSON.JNum l) :: (k3, JSON.JStr i) :: optional) =>
      if ((k1 =? "name") && (k2 =? "level") && (k3 =? "icon"))%string then
        match optional with
        | [] => Some {| name := n; level := l; icon := i; years := None; description := None |}
        | [(k4, JSON.JNum y)] =>
            if (k4 =? "years")%string
            then Some {| name := n; level := l; icon := i; years := Some y; description := None |}
            else None
        | [(k4, JSON.JStr d)] =>
            if (k4 =? "description")%string
            then Some {| name := n; level := l; icon := i; years := None; description := Some d |}
            else None
        | [(k4, JSON.JNum y); (k5, JSON.JStr d)] =>
            if ((k4 =? "years") && (k5 =? "description"))%string
            then Some {| name := n; level := l; icon := i; years := Some y; description := Some d |}
            else None
        | _ => None
        end
      else None
  | _ => None
  end.

Fixpoint all_some {A : Type} (l : list (option A)) : option (list A) :=
  match l with
  | [] => Some []
  | Some x :: rest => option_map (cons x) (all_some rest)
  | None :: _ => None
  end.

Definition asCategory (kv : string * JSON.value) : option (string * list SkillRecord) :=
  match snd kv with
  | JSON.JArr elements => option_map (pair (fst kv)) (all_some (map asSkillRecord elements))
  | _ => None
  end.

(** The typed view of [this.skillsData]: defined on the values [toJSON]
    builds. *)
Definition asSkillsData (v : JSON.value) : option SkillsData :=
  match v with
  | JSON.JObj [(k, JSON.JObj categories)] =>
      if (k =? "skills")%string
      then option_map Build_SkillsData (all_some (map asCategory categories))
      else None
  | _ => None
  end.

(** ** Property lookup *)

(** The names every plain object inherits from [Object.prototype]; each
    holds a function, or the prototype itself for [__proto__]. *)
Definition Object_prototype : list string :=
  [ "constructor"; "__defineGetter__"; "__defineSetter__"; "hasOwnProperty";
    "__lookupGetter__"; "__lookupSetter__"; "isPrototypeOf"; "propertyIsEnumerable";
    "toString"; "valueOf"; "__proto__"; "toLocaleString" ].

(** What [obj[key]] evaluates to. *)
Inductive Property (A : Type) : Type :=
| Own (a : A)
| Inherited
| Undefined.
Arguments Own {A} a.
Arguments Inherited {A}.
Arguments Undefined {A}.

Fixpoint own_property {A : Type} (obj : list (string * A)) (key : string) : option A :=
  match obj with
  | [] => None
  | (k, a) :: rest => if (k =? key)%string then Some a else own_property rest key
  end.

Definition get_property {A : Type} (obj : list (string * A)) (key : string) : Property A :=
  match own_property obj key with
  | Some a => Own a
  | None =>
      if existsb (String.eqb key) Object_prototype then Inherited else Undefined
  end.

(** Assignment to an own property that exists. *)
Fixpoint set_property {A : Type} (obj : list (string * A)) (key : string) (a : A)
  : list (string * A) :=
  match obj with
  | [] => []
  | (k, a') :: rest =>
      if (k =? key)%string then (k, a) :: rest else (k, a') :: set_property rest key a
  end.

(* ================================================================= *)
(** * The browser *)

Inductive JSError : Type :=
| Error (message : string)
| TypeError (message : string)
| SyntaxError
| QuotaExceededError.

(** [console]: a passive log. *)
Inductive Severity : Type := LogInfo | LogWarn | LogError.

Inductive LogDetail : Type :=
| Text (s : string)
| Caught (e : JSError).

Record LogEntry : Type := {
  severity : Severity;
  message : string;
  detail : LogDetail
}.

(** [localStorage]: string keys to string values, under a quota on the
    bytes stored. *)
Record Storage : Type := {
  items : list (string * string);
  quota : N
}.

Fixpoint storage_usage (l : list (string * string)) : N :=
  match l with
  | [] => 0%N
  | (k, v) :: rest =>
      (N.of_nat (String.length k) + N.of_nat (String.length v) + storage_usage rest)%N
  end.

Fixpoint storage_put (l : list (string * string)) (key text : string)
  : list (string * string) :=
  match l with
  | [] => [(key, text)]
  | (k, v) :: rest =>
      if (k =? key)%string then (k, text) :: rest else (k, v) :: storage_put rest key text
  end.

(** The instance: [this.skillsData] and [this.initialized]. *)
Record SkillsManager : Type := {
  skillsData : JSON.value;
  initialized : bool
}.

(** [new SkillsManager()]. *)
Definition constructor : SkillsManager :=
  {| skillsData := JSON.JNull; initialized := false |}.

(** Everything a method can read or write.  [document] maps the id of an
    element to its content ([innerHTML], [textContent]). *)
Record World : Type := {
  this : SkillsManager;
  localStorage : Storage;
  document : list (string * string);
  console : list LogEntry
}.

(** The world with one component replaced. *)
Definition with_skillsData (v : JSON.value) (w : World) : World :=
  {| this := {| skillsData := v; initialized := initialized (this w) |};
     localStorage := localStorage w;
     document := document w;
     console := console w |}.

Definition with_items (l : list (string * string)) (w : World) : World :=
  {| this := this w;
     localStorage := {| items := l; quota := quota (localStorage w) |};
     document := document w;
     console := console w |}.

Definition with_document (doc : list (string * string)) (w : World) : World :=
  {| this := this w;
     localStorage := localStorage w;
     document := doc;
     console := console w |}.

Definition with_console (log : list LogEntry) (w : World) : World :=
  {| this := this w;
     localStorage := localStorage w;
     document := document w;
     console := log |}.

(** ** Computations *)

(** How a call ends.  [Unmodelled]: the call went into a value of
    [this.skillsData] that [asSkillsData] does not read. *)
Inductive Completion (A : Type) : Type :=
| Normal (a : A) (w : World)
| Throw (e : JSError) (w : World)
| Unmodelled.
Arguments Normal {A} a w.
Arguments Throw {A} e w.
Arguments Unmodelled {A}.

Definition JS (A : Type) : Type := World -> Completion A.

Definition ret {A : Type} (a : A) : JS A := fun w => Normal a w.

Definition bind {A B : Type} (c : JS A) (k : A -> JS B) : JS B :=
  fun w =>
    match c w with
    | Normal a w' => k a w'
    | Throw e w' => Throw e w'
    | Unmodelled => Unmodelled
    end.

Definition throw {A : Type} (e : JSError) : JS A := fun w => Throw e w.

(** [try { body } catch (error) { handler }]. *)
Definition try_catch {A : Type} (body : JS A) (handler : JSError -> JS A) : JS A :=
  fun w =>
    match body w with
    | Normal a w' => Normal a w'
    | Throw e w' => handler e w'
    | Unmodelled => Unmodelled
    end.

Notation "x <- c ;; k" := (bind c (fun x => k))
  (at level 61, c at next level, right associativity).
Notation "c ;; k" := (bind c (fun _ => k))
  (at level 61, right associativity).

Fixpoint forEach {A : Type} (l : list A) (body : A -> JS unit) : JS unit :=
  match l with
  | [] => ret tt
  | x :: rest => body x ;; forEach rest body
  end.

(** ** [this.skillsData] *)

Definition get_skillsData : JS JSON.value :=
  fun w => Normal (skillsData (this w)) w.

Definition set_skillsData (v : JSON.value) : JS unit :=
  fun w => Normal tt (with_skillsData v w).

(** Reading [this.skillsData] as a document. *)
Definition typed (v : JSON.value) : JS SkillsData :=
  fun w =>
    match asSkillsData v with
    | Some d => Normal d w
    | None => Unmodelled
    end.

(** ** [console] *)

Definition console_write (entry : LogEntry) : JS unit :=
  fun w => Normal tt (with_console (console w ++ [entry])%list w).

Definition console_warn (msg : string) (e : JSError) : JS unit :=
  console_write {| severity := LogWarn; message := msg; detail := Caught e |}.

Definition console_error (msg : string) (s : string) : JS unit :=
  console_write {| severity := LogError; message := msg; detail := Text s |}.

(** ** [localStorage] *)

Definition localStorage_getItem (key : string) : JS (option string) :=
  fun w => Normal (own_property (items (localStorage w)) key) w.

(** [setItem] throws when the write would exceed the quota. *)
Definition localStorage_setItem (key text : string) : JS unit :=
  fun w =>
    let stored := storage_put (items (localStorage w)) key text in
    if (storage_usage stored <=? quota (localStorage w))%N
    then Normal tt (with_items stored w)
    else Throw QuotaExceededError w.

(** ** [document] *)

Definition getElementById (id : string) : JS (option string) :=
  fun w => Normal (own_property (document w) id) w.

(** Assignment to [innerHTML] or [textContent] of the element [id]. *)
Definition set_content (id : string) (content : string) : JS unit :=
  fun w => Normal tt (with_document (set_property (document w) id content) w).

(** ** [fetch] *)

Record Response : Type := {
  ok : bool;
  status : Z;
  body : string
}.

(** How the promise of [fetch(url)] settles. *)
Inductive FetchOutcome : Type :=
| FetchRejected (reason : JSError)
| FetchFulfilled (response : Response).

Definition fetch (network : string -> FetchOutcome) (url : string) : JS Response :=
  match network url with
  | FetchRejected reason => throw reason
  | FetchFulfilled response => ret response
  end.

Definition JSON_parse (text : string) : JS JSON.value :=
  match JSON.parse text with
  | Some v => ret v
  | None => throw SyntaxError
  end.

(** [response.json()]. *)
Definition response_json (response : Response) : JS JSON.value :=
  JSON_parse (body response).

(** ** [Math] *)

Inductive JSNumber : Type :=
| Finite (z : Z)
| NaN
| Infinity (negative : bool).

(** [Math.round(a / b)] for integers [a] and [b]: the quotient rounded to
    the nearest integer, a half upwards; a division by zero gives [NaN]
    or an infinity. *)
Definition Math_round_quotient (a b : Z) : JSNumber :=
  if b =? 0 then
    if a =? 0 then NaN else Infinity (a <? 0)
  else Finite ((2 * a + b) / (2 * b)).

Definition show_number (x : JSNumber) : string :=
  match x with
  | Finite z => show_Z z
  | NaN => "NaN"
  | Infinity false => "Infinity"
  | Infinity true => "-Infinity"
  end.

(* ================================================================= *)
(** * [class SkillsManager] *)

(** ** [getFallbackSkillsData] *)

Definition skill (n : string) (l : Z) (i : string) (y : option Z) : SkillRecord :=
  {| name := n; level := l; icon := i; years := y; description := None |}.

Definition getFallbackSkillsData : SkillsData :=
  {| skills :=
       [ ("frontend",
          [ skill "HTML5" 95 "🔧" (Some 5);
            skill "CSS3" 90 "🎨" (Some 5);
            skill "JavaScript" 92 "⚡" (Some 4) ]);
         ("backend",
          [ skill "Node.js" 88 "🟢" (Some 3);
            skill "Python" 85 "🐍" (Some 4);
            skill "MongoDB" 80 "🍃" (Some 3) ]);
         ("tools",
          [ skill "Git" 90 "📝" (Some 4);
            skill "Docker" 75 "🐳" (Some 2);
            skill "AWS" 70 "☁️" (Some 2) ]);
         ("softSkills",
          [ skill "Problem Solving" 95 "🧩" None;
            skill "Team Collaboration" 90 "👥" None;
            skill "Communication" 88 "💬" None ]) ] |}.

(** ** [loadSkillsData] *)

Definition loadSkillsData (network : string -> FetchOutcome) : JS unit :=
  try_catch
    (response <- fetch network "data/skills.json" ;;
     (if negb (ok response)
      then throw (Error ("HTTP " ++ show_Z (status response)))
      else ret tt) ;;
     data <- response_json response ;;
     set_skillsData data)
    (fun error =>
       console_warn "Using fallback skills data:" error ;;
       set_skillsData (toJSON getFallbackSkillsData)).

(** ** [getProficiencyClass], [getProficiencyLabel] *)

Definition getProficiencyClass (level : Z) : string :=
  if level >=? 90 then "skill--expert"
  else if level >=? 75 then "skill--advanced"
  else if level >=? 60 then "skill--intermediate"
  else "skill--beginner".

Definition getProficiencyLabel (level : Z) : string :=
  if level >=? 90 then "Expert"
  else if level >=? 75 then "Advanced"
  else if level >=? 60 then "Intermediate"
  else "Beginner".

(** ** [createSkillElement], [createSoftSkillBadge] *)

(** [name="value"]. *)
Definition attr (n v : string) : string := n ++ "=" ++ dq ++ v ++ dq.

(** The inner template of the years label. *)
Definition years_label (y : Z) : string :=
  template
    [ "<span "; attr "class" "skill__years"; ">"; show_Z y; " ";
      (if y =? 1 then "year" else "years"); "</span>" ].

Definition description_paragraph (d : string) : string :=
  template [ "<p "; attr "class" "skill__description"; ">"; d; "</p>" ].

Definition createSkillElement (skill : SkillRecord) : string :=
  let proficiencyClass := getProficiencyClass (level skill) in
  template
    [ nl;
      indent 12; "<div "; attr "class" ("skill " ++ proficiencyClass); " ";
                 attr "data-skill-level" (show_Z (level skill)); ">"; nl;
      indent 16; "<div "; attr "class" "skill__header"; ">"; nl;
      indent 20; "<span "; attr "class" "skill__icon"; ">"; icon skill; "</span>"; nl;
      indent 20; "<div "; attr "class" "skill__info"; ">"; nl;
      indent 24; "<div "; attr "class" "skill__name-wrapper"; ">"; nl;
      indent 28; "<span "; attr "class" "skill__name"; ">"; name skill; "</span>"; nl;
      indent 28; match years skill with        (* skill.years ? ... : '' *)
                 | Some y => if y =? 0 then EmptyString else years_label y
                 | None => EmptyString
                 end; nl;
      indent 24; "</div>"; nl;
      indent 24; "<span "; attr "class" "skill__percentage"; ">";
                 show_Z (level skill); "%</span>"; nl;
      indent 20; "</div>"; nl;
      indent 16; "</div>"; nl;
      indent 16; match description skill with  (* skill.description ? ... : '' *)
                 | Some d =>
                     if (d =? EmptyString)%string then EmptyString
                     else description_paragraph d
                 | None => EmptyString
                 end; nl;
      indent 16; "<div "; attr "class" "skill__bar"; ">"; nl;
      indent 20; "<div "; attr "class" "skill__progress"; " ";
                 attr "data-progress" (show_Z (level skill)); " ";
                 attr "style" "width: 0%"; "></div>"; nl;
      indent 16; "</div>"; nl;
      indent 16; "<div "; attr "class" "skill__level-indicator"; ">"; nl;
      indent 20; "<span "; attr "class" "skill__level-label"; ">";
                 getProficiencyLabel (level skill); "</span>"; nl;
      indent 16; "</div>"; nl;
      indent 12; "</div>"; nl;
      indent 8 ].

Definition createSoftSkillBadge (skill : SkillRecord) : string :=
  let proficiencyClass := getProficiencyClass (level skill) in
  template
    [ nl;
      indent 12; "<div "; attr "class" ("soft-skill-badge " ++ proficiencyClass); " ";
                 attr "data-skill-level" (show_Z (level skill)); ">"; nl;
      indent 16; "<span "; attr "class" "soft-skill-badge__icon"; ">"; icon skill;
                 "</span>"; nl;
      indent 16; "<div "; attr "class" "soft-skill-badge__content"; ">"; nl;
      indent 20; "<span "; attr "class" "soft-skill-badge__name"; ">"; name skill;
                 "</span>"; nl;
      indent 20; "<div "; attr "class" "soft-skill-badge__progress"; ">"; nl;
      indent 24; "<div "; attr "class" "soft-skill-badge__progress-bar"; " ";
                 attr "style" "width: 0%"; "></div>"; nl;
      indent 20; "</div>"; nl;
      indent 20; "<span "; attr "class" "soft-skill-badge__level"; ">";
                 show_Z (level skill); "%</span>"; nl;
      indent 16; "</div>"; nl;
      indent 12; "</div>"; nl;
      indent 8 ].

(** ** [renderTechnicalSkills], [renderSoftSkills], [renderSkills] *)

Definition renderTechnicalSkills (category : string) (skills : list SkillRecord) : JS unit :=
  let containerId := category ++ "-skills" in
  container <- getElementById containerId ;;
  match container with
  | None => ret tt
  | Some _ => set_content containerId (template (map createSkillElement skills))
  end.

Definition renderSoftSkills (skills : list SkillRecord) : JS unit :=
  let containerId := "softskills-badges" in
  container <- getElementById containerId ;;
  match container with
  | None => ret tt
  | Some _ => set_content containerId (template (map createSoftSkillBadge skills))
  end.

Definition renderSkills : JS unit :=
  data <- get_skillsData ;;
  if negb (JSON.truthy data) then ret tt
  else
    d <- typed data ;;
    let categories := ["frontend"; "backend"; "tools"; "softSkills"] in
    forEach categories (fun category =>
      match get_property (skills d) category with
      | Undefined => ret tt
      | Inherited => throw (TypeError "skills.map is not a function")
      | Own skills =>
          if (category =? "softSkills")%string
          then renderSoftSkills skills
          else renderTechnicalSkills category skills
      end).

(** ** [calculateAndDisplayStats] *)

(** The four counters of the method. *)
Record Counters : Type := {
  totalSkills : Z;
  totalProficiency : Z;
  totalYears : Z;
  countedSkills : Z
}.

(** The body of the inner [forEach]. *)
Definition count_skill (acc : Counters) (skill : SkillRecord) : Counters :=
  {| totalSkills := totalSkills acc + 1;
     totalProficiency := totalProficiency acc + level skill;
     totalYears :=
       match years skill with                    (* if (skill.years) *)
       | Some y => if y =? 0 then totalYears acc else totalYears acc + y
       | None => totalYears acc
       end;
     countedSkills := countedSkills acc + 1 |}.

(** [Object.values(skills).forEach(category => category.forEach(...))]. *)
Definition count_all (skills : SkillCategorySet) : Counters :=
  fold_left
    (fun acc category => fold_left count_skill category acc)
    (map snd skills)
    {| totalSkills := 0; totalProficiency := 0; totalYears := 0; countedSkills := 0 |}.

(** [if (element)]. *)
Definition found (element : option string) : bool :=
  match element with
  | Some _ => true
  | None => false
  end.

(** After each assignment to [textContent] the method calls [animateValue],
    which only schedules animation frames: they run after the method
    returned and end on the same text. *)
Definition calculateAndDisplayStats : JS unit :=
  data <- get_skillsData ;;
  if negb (JSON.truthy data) then ret tt
  else
    d <- typed data ;;
    let c := count_all (skills d) in
    totalSkillsElement <- getElementById "total-skills" ;;
    avgProficiencyElement <- getElementById "avg-proficiency" ;;
    totalYearsElement <- getElementById "total-years" ;;
    (if found totalSkillsElement
     then set_content "total-skills" (show_Z (totalSkills c))
     else ret tt) ;;
    (if found avgProficiencyElement && (countedSkills c >? 0) then
       let average := Math_round_quotient (totalProficiency c) (countedSkills c) in
       set_content "avg-proficiency" (show_number average ++ "%")
     else ret tt) ;;
    (if found totalYearsElement
     then set_content "total-years" (show_Z (totalYears c))
     else ret tt).

(** ** [saveToLocalStorage], [loadFromLocalStorage] *)

Definition saveToLocalStorage : JS unit :=
  try_catch
    (data <- get_skillsData ;;
     localStorage_setItem "portfolio-skills" (JSON.stringify data))
    (fun error => console_warn "Could not save skills to localStorage:" error).

(** The [try] block either returns [true] or falls through to the
    [return false] after it. *)
Definition loadFromLocalStorage : JS bool :=
  returned <-
    try_catch
      (saved <- localStorage_getItem "portfolio-skills" ;;
       match saved with
       | Some text =>
           if negb (text =? EmptyString)%string then
             data <- JSON_parse text ;;
             set_skillsData data ;;
             ret (Some true)
           else ret None
       | None => ret None
       end)
      (fun error =>
         console_warn "Could not load skills from localStorage:" error ;;
         ret None) ;;
  match returned with
  | Some b => ret b
  | None => ret false
  end.

(** ** [updateSkillLevel] *)

(** [array.find(s => s.name === skillName)]. *)
Definition find_skill (skillName : string) (l : list SkillRecord) : option SkillRecord :=
  find (fun s => (name s =? skillName)%string) l.

(** [skill.level = v] on the record that [find] returned: the first one of
    that name. *)
Fixpoint assign_level (skillName : string) (v : Z) (l : list SkillRecord)
  : list SkillRecord :=
  match l with
  | [] => []
  | s :: rest =>
      if (name s =? skillName)%string
      then {| name := name s; level := v; icon := icon s; years := years s;
              description := description s |} :: rest
      else s :: assign_level skillName v rest
  end.

Definition updateSkillLevel (category skillName : string) (newLevel : Z) : JS bool :=
  data <- get_skillsData ;;
  if negb (JSON.truthy data) then
    console_error "Category not found:" category ;; ret false
  else
    d <- typed data ;;
    match get_property (skills d) category with
    | Undefined => console_error "Category not found:" category ;; ret false
    | Inherited =>
        throw (TypeError "this.skillsData.skills[category].find is not a function")
    | Own records =>
        match find_skill skillName records with
        | None => console_error "Skill not found:" skillName ;; ret false
        | Some _ =>
            let updated := assign_level skillName (Z.min 100 (Z.max 0 newLevel)) records in
            set_skillsData
              (toJSON {| skills := set_property (skills d) category updated |}) ;;
            saveToLocalStorage ;;
            renderSkills ;;
            calculateAndDisplayStats ;;
            ret true
        end
    end.

(* ================================================================= *)
(** * Notions the properties are stated with *)

(** The records of all categories, in order. *)
Definition all_records (d : SkillsData) : list SkillRecord :=
  List.concat (map snd (skills d)).

(** A category set is a mapping: no category key occurs twice. *)
Definition valid (d : SkillsData) : bool :=
  JSON.distinct (map fst (skills d)).

Definition level_in_range (r : SkillRecord) : bool :=
  (0 <=? level r) && (level r <=? 100).

Definition levels_in_range (d : SkillsData) : bool :=
  forallb level_in_range (all_records d).



(** The text of the years label: ["1 year"], or ["N years"]. *)
Definition years_text (n : Z) : string :=
  if n =? 1 then "1 year" else show_Z n ++ " years".

(** The record with [years: 0] read as no [years] at all. *)
Definition without_zero_years (r : SkillRecord) : SkillRecord :=
  {| name := name r; level := level r; icon := icon r;
     years := match years r with
              | Some y => if y =? 0 then None else Some y
              | None => None
              end;
     description := description r |}.

Definition without_zero_years_data (d : SkillsData) : SkillsData :=
  {| skills := map (fun c : string * list SkillRecord =>
                      (fst c, map without_zero_years (snd c))) (skills d) |}.

(** The sum of a list of integers. *)
Definition sum_Z (l : list Z) : Z := fold_right Z.add 0 l.

(** The years of a record, a missing field counting as 0. *)
Definition years_or_zero (r : SkillRecord) : Z :=
  match years r with
  | Some y => y
  | None => 0
  end.

(** What [renderSkills] leaves in the document, category by category. *)
Definition render_category (d : SkillsData) (doc : list (string * string))
  (category : string) : list (string * string) :=
  match own_property (skills d) category with
  | None => doc
  | Some records =>
      if (category =? "softSkills")%string
      then set_property doc "softskills-badges" (template (map createSoftSkillBadge records))
      else set_property doc (category ++ "-skills") (template (map createSkillElement records))
  end.

Definition render_document (d : SkillsData) (doc : list (string * string))
  : list (string * string) :=
  fold_left (render_category d) ["frontend"; "backend"; "tools"; "softSkills"] doc.

(** What [calculateAndDisplayStats] leaves in the document. *)
Definition stats_document (c : Counters) (doc : list (string * string))
  : list (string * string) :=
  let doc1 := set_property doc "total-skills" (show_Z (totalSkills c)) in
  let doc2 :=
    if countedSkills c >? 0
    then set_property doc1 "avg-proficiency"
           (show_number (Math_round_quotient (totalProficiency c) (countedSkills c)) ++ "%")
    else doc1 in
  set_property doc2 "total-years" (show_Z (totalYears c)).



(** The text after a number literal does not continue it. *)
Definition number_end (rest : string) : bool :=
  match rest with
  | EmptyString => true
  | String c _ => negb (JSON.is_digit c) && negb (JSON.continues_number rest)
  end.

(** [x] brought into the interval from [lo] to [hi]. *)
Definition clamp (x lo hi : Z) : Z :=
  if x <? lo then lo else if hi <? x then hi else x.

(** The world as another instance of the class finds it: a later session on
    the same store. *)
Definition with_this (instance : SkillsManager) (w : World) : World :=
  {| this := instance;
     localStorage := localStorage w;
     document := document w;
     console := console w |}.

(** The page a call leaves behind. *)
Definition page_after {A : Type} (c : Completion A) : option (list (string * string)) :=
  match c with
  | Normal _ w => Some (document w)
  | Throw _ w => Some (document w)
  | Unmodelled => None
  end.

(** ** Worlds to run the methods in *)

(** A page with the containers and the statistics of the skills section. *)
Definition skills_page : list (string * string) :=
  [ ("frontend-skills", EmptyString); ("backend-skills", EmptyString);
    ("tools-skills", EmptyString); ("softskills-badges", EmptyString);
    ("total-skills", "0"); ("avg-proficiency", "0%"); ("total-years", "0") ].

(** A browser whose instance holds [data] and whose store holds [stored]
    under a quota of [q] bytes. *)
Definition browser (data : JSON.value) (stored : list (string * string)) (q : N) : World :=
  {| this := {| skillsData := data; initialized := true |};
     localStorage := {| items := stored; quota := q |};
     document := skills_page;
     console := [] |}.

(** The instance holds the fallback data; the store has room. *)
Definition fallback_world : World :=
  browser (toJSON getFallbackSkillsData) [] 5000000.

(** The store holds an older value and has no room for more. *)
Definition full_store_world : World :=
  browser (toJSON getFallbackSkillsData) [("portfolio-skills", "null")] 20.



(** The page shows the statistics of the fallback data. *)
Definition shown_world : World :=
  with_document
    [("total-skills", "12"); ("avg-proficiency", "87%"); ("total-years", "32")]
    fallback_world.

(** Two categories, no record. *)
Definition no_records : SkillsData :=
  {| skills := [("frontend", []); ("tools", [])] |}.

(** The record of the example, and the same with other years. *)
Definition git (y : option Z) : SkillRecord :=
  {| name := "Git"; level := 90; icon := "📝"; years := y; description := None |}.

(** The network is down. *)
Definition offline (url : string) : FetchOutcome :=
  FetchRejected (TypeError "Failed to fetch").

(** The server answers 200 with the body [null]. *)
Definition serves_null (url : string) : FetchOutcome :=
  FetchFulfilled {| ok := true; status := 200; body := "null" |}.


(* ================================================================= *)
(** * Notions for the properties of the page *)

(** The container of a category, as [renderSoftSkills] and
    [renderTechnicalSkills] name it. *)
Definition container_of (category : string) : string :=
  if (category =? "softSkills")%string then "softskills-badges" else category ++ "-skills".

(** The markup [renderSkills] builds for the records of a category. *)
Definition markup_of (category : string) (records : list SkillRecord) : string :=
  if (category =? "softSkills")%string
  then template (map createSoftSkillBadge records)
  else template (map createSkillElement records).

(** The categories [renderSkills] goes through. *)
Definition rendered_categories : list string :=
  ["frontend"; "backend"; "tools"; "softSkills"].

(** The elements [calculateAndDisplayStats] writes to. *)
Definition stats_elements : list string :=
  ["total-skills"; "avg-proficiency"; "total-years"].

(** Assignments to the contents of elements, one after the other. *)
Definition set_all (writes : list (string * string)) (doc : list (string * string))
  : list (string * string) :=
  fold_left (fun doc kv => set_property doc (fst kv) (snd kv)) writes doc.

(** The assignments [renderSkills] makes on a document: one for each
    category the data has. *)
Definition render_writes (d : SkillsData) : list (string * string) :=
  flat_map
    (fun category =>
       match own_property (skills d) category with
       | Some records => [(container_of category, markup_of category records)]
       | None => []
       end)
    rendered_categories.

(** The assignments [calculateAndDisplayStats] makes. *)
Definition stats_writes (c : Counters) : list (string * string) :=
  [("total-skills", show_Z (totalSkills c))]
  ++ (if countedSkills c >? 0
      then [("avg-proficiency",
             show_number (Math_round_quotient (totalProficiency c) (countedSkills c)) ++ "%")]
      else [])
  ++ [("total-years", show_Z (totalYears c))].

(** The CSS class that belongs to a tier label. *)
Definition class_of_label (label : string) : string :=
  if (label =? "Expert")%string then "skill--expert"
  else if (label =? "Advanced")%string then "skill--advanced"
  else if (label =? "Intermediate")%string then "skill--intermediate"
  else "skill--beginner".

(** The record without a description. *)
Definition without_description (r : SkillRecord) : SkillRecord :=
  {| name := name r; level := level r; icon := icon r; years := years r;
     description := None |}.

(** The record with another level. *)
Definition with_level (v : Z) (r : SkillRecord) : SkillRecord :=
  {| name := name r; level := v; icon := icon r; years := years r;
     description := description r |}.

(** The warning [saveToLocalStorage] logs when the store refuses the write. *)
Definition save_warning : LogEntry :=
  {| severity := LogWarn;
     message := "Could not save skills to localStorage:";
     detail := Caught QuotaExceededError |}.



(* ================================================================= *)
(** * Initialisation and the tabs *)

(** ** [init], [showFallbackSkills] *)

(** [init] and [showFallbackSkills] call into parts of the page that
    [World] does not hold: [initTabs] registers listeners,
    [initSkillAnimations] sets inline styles and starts an
    [IntersectionObserver], and the warning of [showFallbackSkills] becomes
    the first child of the [.container] of the [.skills] section.  The two
    methods take these calls as they find them. *)
Record PageEffects : Type := {
  initTabs : JS unit;
  initSkillAnimations : JS unit;
  prependWarning : JS unit
}.

(** [console.log] with one argument. *)
Definition console_log (msg : string) : JS unit :=
  console_write {| severity := LogInfo; message := msg; detail := Text EmptyString |}.

(** [console.error] with an error for its second argument. *)
Definition console_error_caught (msg : string) (e : JSError) : JS unit :=
  console_write {| severity := LogError; message := msg; detail := Caught e |}.

Definition set_initialized (b : bool) : JS unit :=
  fun w =>
    Normal tt (with_this {| skillsData := skillsData (this w); initialized := b |} w).

Definition showFallbackSkills (page : PageEffects) : JS unit :=
  prependWarning page ;;
  set_skillsData (toJSON getFallbackSkillsData) ;;
  renderSkills ;;
  initSkillAnimations page.

(** A rejected promise of the [async] method is a [Throw]. *)
Definition init (page : PageEffects) (network : string -> FetchOutcome) : JS unit :=
  try_catch
    (loadSkillsData network ;;
     renderSkills ;;
     initTabs page ;;
     initSkillAnimations page ;;
     calculateAndDisplayStats ;;
     set_initialized true ;;
     console_log "Skills manager initialized successfully")
    (fun error =>
       console_error_caught "Failed to initialize skills manager:" error ;;
       showFallbackSkills page).

(** A call that returns and leaves the world as it was; a call that throws
    [e] and leaves the world as it was. *)
Definition returns_quietly (c : JS unit) : Prop := forall w, c w = Normal tt w.


(** What [loadSkillsData] leaves in [this.skillsData], and in the console. *)
Definition loaded (outcome : FetchOutcome) : JSON.value :=
  match outcome with
  | FetchRejected _ => toJSON getFallbackSkillsData
  | FetchFulfilled response =>
      if ok response then
        match JSON.parse (body response) with
        | Some v => v
        | None => toJSON getFallbackSkillsData
        end
      else toJSON getFallbackSkillsData
  end.

Definition load_error (outcome : FetchOutcome) : option JSError :=
  match outcome with
  | FetchRejected reason => Some reason
  | FetchFulfilled response =>
      if ok response then
        match JSON.parse (body response) with
        | Some _ => None
        | None => Some SyntaxError
        end
      else Some (Error ("HTTP " ++ show_Z (status response)))
  end.

Definition load_log (outcome : FetchOutcome) : list LogEntry :=
  match load_error outcome with
  | Some error =>
      [{| severity := LogWarn; message := "Using fallback skills data:";
          detail := Caught error |}]
  | None => []
  end.

Definition init_success : LogEntry :=
  {| severity := LogInfo;
     message := "Skills manager initialized successfully";
     detail := Text EmptyString |}.


(** A page whose three calls return quietly, and one on which
    [IntersectionObserver] cannot be constructed. *)
Definition plain_page : PageEffects :=
  {| initTabs := ret tt; initSkillAnimations := ret tt; prependWarning := ret tt |}.


(** The world when the page has just been loaded: [new SkillsManager()]. *)
Definition page_load : World :=
  {| this := constructor;
     localStorage := {| items := []; quota := 5000000 |};
     document := skills_page;
     console := [] |}.

(** ** [initTabs] *)

(** What the listeners of [initTabs] read and write.  An element may carry
    the class [skills__tab], the class [skills__panel], an id and a
    [data-tab] attribute; the listeners change the class [active], the
    attribute [aria-selected] and the property [hidden]. *)
Record Element : Type := {
  element_id : option string;
  skills__tab : bool;
  skills__panel : bool;
  dataset_tab : option string;
  disabled : bool;
  classList_active : bool;
  aria_selected : option string;
  hidden : bool
}.

(** The elements in document order, none of the tabs inside another; the
    elements [focus()] was called on, latest last; the number of calls of
    [initSkillAnimations] that [setTimeout] has scheduled. *)
Record TabBar : Type := {
  elements : list Element;
  focus_calls : list nat;
  timeouts : nat
}.

Fixpoint update_at {A : Type} (i : nat) (f : A -> A) (l : list A) : list A :=
  match l, i with
  | [], _ => []
  | x :: rest, O => f x :: rest
  | x :: rest, S i' => x :: update_at i' f rest
  end.

(** [document.querySelectorAll('.skills__tab')]: the places of the tabs. *)
Fixpoint query_indices (p : Element -> bool) (from : nat) (l : list Element) : list nat :=
  match l with
  | [] => []
  | el :: rest =>
      if p el then from :: query_indices p (S from) rest
      else query_indices p (S from) rest
  end.

Definition tabs (s : TabBar) : list nat := query_indices skills__tab 0 (elements s).

(** [document.getElementById]: the first element with the id. *)
Fixpoint element_by_id (id : string) (l : list Element) : option nat :=
  match l with
  | [] => None
  | el :: rest =>
      if match element_id el with
         | Some x => (x =? id)%string
         | None => false
         end
      then Some 0%nat
      else option_map S (element_by_id id rest)
  end.

(** [t.classList.remove('active'); t.setAttribute('aria-selected', 'false')]
    for each tab [t]. *)
Definition deselect_tab (el : Element) : Element :=
  if skills__tab el then
    {| element_id := element_id el; skills__tab := skills__tab el;
       skills__panel := skills__panel el; dataset_tab := dataset_tab el;
       disabled := disabled el;
       classList_active := false; aria_selected := Some "false";
       hidden := hidden el |}
  else el.

(** [tab.classList.add('active'); tab.setAttribute('aria-selected', 'true')]. *)
Definition select_tab (el : Element) : Element :=
  {| element_id := element_id el; skills__tab := skills__tab el;
     skills__panel := skills__panel el; dataset_tab := dataset_tab el;
     disabled := disabled el;
     classList_active := true; aria_selected := Some "true";
     hidden := hidden el |}.

(** [panel.classList.remove('active'); panel.hidden = true] for each
    panel. *)
Definition hide_panel (el : Element) : Element :=
  if skills__panel el then
    {| element_id := element_id el; skills__tab := skills__tab el;
       skills__panel := skills__panel el; dataset_tab := dataset_tab el;
       disabled := disabled el;
       classList_active := false; aria_selected := aria_selected el;
       hidden := true |}
  else el.

(** [targetPanel.classList.add('active'); targetPanel.hidden = false]. *)
Definition show_panel (el : Element) : Element :=
  {| element_id := element_id el; skills__tab := skills__tab el;
     skills__panel := skills__panel el; dataset_tab := dataset_tab el;
     disabled := disabled el;
     classList_active := true; aria_selected := aria_selected el;
     hidden := false |}.

(** The template literal with [targetTab] and ["-panel"]; a tab without
    [data-tab] gives [undefined]. *)
Definition panel_id (targetTab : option string) : string :=
  match targetTab with
  | Some t => t ++ "-panel"
  | None => "undefined-panel"
  end.

(** The listener of [click] on the tab at place [tab]. *)
Definition on_click (tab : nat) (s : TabBar) : TabBar :=
  match nth_error (elements s) tab with
  | None => s
  | Some el =>
      let targetTab := dataset_tab el in
      let deselected := map deselect_tab (elements s) in
      let selected := update_at tab select_tab deselected in
      let hidden_panels := map hide_panel selected in
      let shown :=
        match element_by_id (panel_id targetTab) hidden_panels with
        | Some targetPanel => update_at targetPanel show_panel hidden_panels
        | None => hidden_panels
        end in
      {| elements := shown; focus_calls := focus_calls s; timeouts := S (timeouts s) |}
  end.

(** [tab.click()]: the listener runs unless the element is disabled. *)
Definition click (tab : nat) (s : TabBar) : TabBar :=
  match nth_error (elements s) tab with
  | None => s
  | Some el => if disabled el then s else on_click tab s
  end.

(** [tab.focus()]. *)
Definition focus (tab : nat) (s : TabBar) : TabBar :=
  {| elements := elements s;
     focus_calls := (focus_calls s ++ [tab])%list;
     timeouts := timeouts s |}.

(** The listener of [keydown] on the tab at place [index] of [tabs]; with
    the state it gives whether [preventDefault] was called. *)
Definition on_keydown (index : nat) (key : string) (s : TabBar) : TabBar * bool :=
  let length := Z.of_nat (List.length (tabs s)) in
  match nth_error (tabs s) index with
  | None => (s, false)
  | Some tab =>
      if ((key =? "Enter") || (key =? " "))%string then (click tab s, true)
      else if (key =? "ArrowRight")%string then
        match nth_error (tabs s) (Z.to_nat ((Z.of_nat index + 1) mod length)) with
        | Some nextTab => (click nextTab (focus nextTab s), true)
        | None => (s, true)
        end
      else if (key =? "ArrowLeft")%string then
        match nth_error (tabs s) (Z.to_nat ((Z.of_nat index - 1 + length) mod length)) with
        | Some prevTab => (click prevTab (focus prevTab s), true)
        | None => (s, true)
        end
      else (s, false)
  end.

(** What a click on the tab at [tab] makes of the element at [place], when
    [target] is the place of the panel of the tab. *)
Definition after_click (tab : nat) (target : option nat) (place : nat) (el : Element)
  : Element :=
  let el := deselect_tab el in
  let el := if (place =? tab)%nat then select_tab el else el in
  let el := hide_panel el in
  if match target with
     | Some t => (place =? t)%nat
     | None => false
     end
  then show_panel el else el.

(** The panel of a tab. *)
Definition target_of (tab : nat) (s : TabBar) : option nat :=
  match nth_error (elements s) tab with
  | Some el => element_by_id (panel_id (dataset_tab el)) (elements s)
  | None => None
  end.

(** A bar of three tabs and three panels, the first selected. *)
Definition tab_element (t : string) (selected : bool) : Element :=
  {| element_id := None; skills__tab := true; skills__panel := false;
     dataset_tab := Some t; disabled := false;
     classList_active := selected;
     aria_selected := Some (if selected then "true" else "false");
     hidden := false |}.

Definition panel_element (t : string) (selected : bool) : Element :=
  {| element_id := Some (t ++ "-panel"); skills__tab := false; skills__panel := true;
     dataset_tab := None; disabled := false;
     classList_active := selected; aria_selected := None;
     hidden := negb selected |}.

Definition skills_tabs : TabBar :=
  {| elements :=
       [ tab_element "frontend" true; tab_element "backend" false;
         tab_element "tools" false;
         panel_element "frontend" true; panel_element "backend" false;
         panel_element "tools" false ];
     focus_calls := [];
     timeouts := 0 |}.
(* ================================================================= *)
(** * Properties of strings *)

Lemma append_assoc (a b c : string) : (a ++ b) ++ c = a ++ (b ++ c).
Proof. induction a as [|x a IH]; simpl; [reflexivity | now rewrite IH]. Qed.

Lemma append_nil_r (a : string) : a ++ EmptyString = a.
Proof. induction a as [|x a IH]; simpl; [reflexivity | now rewrite IH]. Qed.

Lemma length_append (a b : string) :
  String.length (a ++ b) = (String.length a + String.length b)%nat.
Proof. induction a as [|x a IH]; simpl; [reflexivity | now rewrite IH]. Qed.

Lemma prefix_append (a b : string) : prefix a (a ++ b) = true.
Proof.
  induction a as [|x a IH]; simpl.
  - now destruct b.
  - destruct (ascii_dec x x) as [_|ne]; [exact IH | now destruct ne].
Qed.

Lemma includes_here (needle rest : string) : includes needle (needle ++ rest) = true.
Proof.
  destruct needle as [|x needle]; simpl.
  - now destruct rest.
  - destruct (ascii_dec x x) as [_|ne]; [| now destruct ne].
    now rewrite prefix_append.
Qed.

Lemma includes_later (needle before hay : string) :
  includes needle hay = true -> includes needle (before ++ hay) = true.
Proof.
  intros H. induction before as [|x before IH]; simpl; [exact H |].
  rewrite IH. apply orb_true_r.
Qed.
(* ================================================================= *)
(** * Properties of the JSON text *)

Import JSON.

Lemma span_digits_uint (u : Decimal.uint) (rest : string) :
  number_end rest = true ->
  span_digits (NilEmpty.string_of_uint u ++ rest) = (NilEmpty.string_of_uint u, rest).
Proof.
  intros Hend.
  induction u; simpl; try (rewrite IHu; reflexivity).
  destruct rest as [|c rest']; [reflexivity |].
  simpl in Hend. apply andb_true_iff in Hend as [Hd _].
  simpl. now destruct (is_digit c).
Qed.

(** A positive number is printed without a leading zero. *)
Lemma to_uint_head (p : positive) :
  exists c s, NilEmpty.string_of_uint (Pos.to_uint p) = String c s
              /\ is_digit c = true /\ Ascii.eqb c "0" = false.
Proof.
  assert (Hnorm : Decimal.unorm (Pos.to_uint p) = Pos.to_uint p).
  { rewrite <- (DecimalN.Unsigned.to_of (Pos.to_uint p)).
    unfold N.of_uint. rewrite DecimalPos.Unsigned.of_to. reflexivity. }
  pose proof (DecimalPos.Unsigned.to_uint_nonnil p) as Hnil.
  pose proof (DecimalPos.Unsigned.to_uint_nonzero p) as Hzero.
  destruct (Pos.to_uint p) as [|u|u|u|u|u|u|u|u|u|u] eqn:E;
    try (simpl; eexists _, _; repeat split; reflexivity).
  - now destruct Hnil.
  - exfalso. destruct u as [|v|v|v|v|v|v|v|v|v|v]; [now destruct Hzero | ..];
      rewrite unorm_D0 in Hnorm;
      match type of Hnorm with
      | Decimal.unorm ?x = _ =>
          assert (Hlen : (Decimal.nb_digits (Decimal.unorm x) <= Decimal.nb_digits x)%nat)
            by (apply nb_digits_unorm; discriminate);
          rewrite Hnorm in Hlen; simpl in Hlen; lia
      end.
Qed.

Lemma parse_digits_pos (negative : bool) (p : positive) (rest : string) :
  number_end rest = true ->
  parse_digits negative (NilEmpty.string_of_uint (Pos.to_uint p) ++ rest)
  = Some (if negative then Z.neg p else Z.pos p, rest).
Proof.
  intros Hend.
  assert (Hcont : continues_number rest = false).
  { destruct rest as [|c r]; [reflexivity |].
    simpl in Hend. apply andb_true_iff in Hend as [_ H]. now apply negb_true_iff in H. }
  unfold parse_digits. rewrite span_digits_uint by exact Hend.
  destruct (to_uint_head p) as (c & s & E & _ & H0).
  rewrite NilEmpty.usu, E, H0, Hcont. simpl.
  unfold N.of_uint. rewrite DecimalPos.Unsigned.of_to. now destruct negative.
Qed.

Lemma show_Z_pos (p : positive) :
  show_Z (Z.pos p) = NilEmpty.string_of_uint (Pos.to_uint p).
Proof.
  unfold show_Z. simpl. unfold NilZero.string_of_uint.
  pose proof (DecimalPos.Unsigned.to_uint_nonnil p) as Hnil.
  destruct (Pos.to_uint p); try reflexivity. now destruct Hnil.
Qed.

Lemma show_Z_neg (p : positive) :
  show_Z (Z.neg p) = String "-" (NilEmpty.string_of_uint (Pos.to_uint p)).
Proof.
  unfold show_Z. simpl. unfold NilZero.string_of_uint.
  pose proof (DecimalPos.Unsigned.to_uint_nonnil p) as Hnil.
  destruct (Pos.to_uint p); try reflexivity. now destruct Hnil.
Qed.

Lemma parse_number_show (z : Z) (rest : string) :
  number_end rest = true ->
  parse_number (show_Z z ++ rest) = Some (z, rest).
Proof.
  intros Hend. destruct z as [|p|p].
  - unfold show_Z, parse_number, parse_digits. simpl.
    destruct rest as [|c r]; [reflexivity |].
    simpl in Hend. apply andb_true_iff in Hend as [Hd Hc].
    apply negb_true_iff in Hd. apply negb_true_iff in Hc.
    simpl. rewrite Hd. simpl in Hc |- *. rewrite Hc. reflexivity.
  - rewrite show_Z_pos.
    destruct (to_uint_head p) as (c & s & E & Hd & _).
    unfold parse_number. rewrite E at 1. simpl.
    destruct (Ascii.eqb_spec c "-") as [->|_]; [discriminate Hd |].
    now apply (parse_digits_pos false).
  - rewrite show_Z_neg. unfold parse_number. simpl.
    now apply (parse_digits_pos true).
Qed.

(** A number starts with a digit or a minus sign. *)
Lemma show_Z_head (z : Z) :
  exists c s, show_Z z = String c s /\ (is_digit c = true \/ c = "-"%char).
Proof.
  destruct z as [|p|p].
  - now exists "0"%char, EmptyString; split; [| left].
  - rewrite show_Z_pos. destruct (to_uint_head p) as (c & s & E & Hd & _).
    exists c, s. now split; [| left].
  - rewrite show_Z_neg. eexists _, _. now split; [| right].
Qed.

Lemma parse_chars_escape_char (c : ascii) (tail : string) :
  parse_chars (escape_char c ++ tail)
  = match parse_chars tail with
    | Some (t, r) => Some (String c t, r)
    | None => None
    end.
Proof.
  destruct c as [[|] [|] [|] [|] [|] [|] [|] [|]]; reflexivity.
Qed.

Lemma parse_chars_escape (s rest : string) :
  parse_chars (escape s ++ String dquote rest) = Some (s, rest).
Proof.
  induction s as [|c s IH]; simpl.
  - reflexivity.
  - rewrite append_assoc, parse_chars_escape_char, IH. reflexivity.
Qed.

Lemma parse_chars_quote (s rest : string) :
  exists body, quote s ++ rest = String dquote body /\ parse_chars body = Some (s, rest).
Proof.
  exists (escape s ++ String dquote rest). split.
  - unfold quote. simpl. now rewrite append_assoc.
  - apply parse_chars_escape.
Qed.

Lemma number_head (c : ascii) :
  is_digit c = true \/ c = "-"%char ->
  is_ws c = false /\ Ascii.eqb c "n" = false /\ Ascii.eqb c "t" = false
  /\ Ascii.eqb c "f" = false /\ Ascii.eqb c dquote = false
  /\ Ascii.eqb c "[" = false /\ Ascii.eqb c "{" = false
  /\ Ascii.eqb c "]" = false.
Proof.
  intros [H | ->]; [| now repeat split].
  destruct c as [[|] [|] [|] [|] [|] [|] [|] [|]]; try discriminate H; now repeat split.
Qed.

(** A printed value starts with a character that is neither white space nor
    a closing bracket. *)
Lemma print_head (v : value) :
  exists c s, print v = String c s /\ is_ws c = false /\ Ascii.eqb c "]" = false.
Proof.
  destruct v as [|[|]|z|s|l|l]; try (eexists _, _; now repeat split).
  destruct (show_Z_head z) as (c & s & E & H).
  exists c, s. split; [exact E |]. now destruct (number_head c H) as (? & _ & _ & _ & _ & _ & _ & ?).
Qed.

Lemma skip_ws_head (c : ascii) (s : string) :
  is_ws c = false -> skip_ws (String c s) = String c s.
Proof. intros H. simpl. now rewrite H. Qed.

Lemma peek_hit (c : ascii) (s : string) :
  is_ws c = false -> peek c (String c s) = Some s.
Proof. intros H. unfold peek. now rewrite skip_ws_head, Ascii.eqb_refl. Qed.

Lemma peek_miss (c c' : ascii) (s : string) :
  is_ws c' = false -> Ascii.eqb c' c = false -> peek c (String c' s) = None.
Proof. intros H E. unfold peek. now rewrite skip_ws_head, E. Qed.

Lemma obj_set_fresh (acc : list (string * value)) (k : string) (x : value) :
  existsb (String.eqb k) (map fst acc) = false ->
  obj_set acc k x = (acc ++ [(k, x)])%list.
Proof.
  induction acc as [|[k' x'] acc IH]; simpl; [reflexivity |].
  intros H. apply orb_false_iff in H as [Hk Hrest].
  rewrite String.eqb_sym, Hk, IH by exact Hrest. reflexivity.
Qed.

Lemma obj_of_members_distinct (l : list (string * value)) :
  distinct (map fst l) = true -> obj_of_members l = l.
Proof.
  unfold obj_of_members.
  enough (H : forall acc,
    distinct (map fst l) = true ->
    forallb (fun k => negb (existsb (String.eqb k) (map fst acc))) (map fst l) = true ->
    fold_left (fun acc kv => obj_set acc (fst kv) (snd kv)) l acc = (acc ++ l)%list).
  { intros D. apply (H [] D). clear. induction l; simpl; [reflexivity | assumption]. }
  induction l as [|[k x] l IH]; intros acc D F; simpl in *.
  - now rewrite List.app_nil_r.
  - apply andb_true_iff in D as [Dk Dl]. apply andb_true_iff in F as [Fk Fl].
    apply negb_true_iff in Dk, Fk.
    rewrite obj_set_fresh by exact Fk.
    rewrite IH; [now rewrite <- List.app_assoc | exact Dl |].
    clear IH. revert Dk Fl. clear. induction l as [|[k' x'] l IH]; simpl; [reflexivity |].
    intros Dk F. apply orb_false_iff in Dk as [Hk Dk].
    apply andb_true_iff in F as [F1 F2].
    rewrite (IH Dk F2), andb_true_r.
    rewrite map_app, existsb_app. simpl.
    apply negb_true_iff in F1. rewrite F1. simpl.
    rewrite String.eqb_sym, Hk. reflexivity.
Qed.

Lemma join_cons (closing x : string) (l : list string) :
  join closing (x :: l)
  = x ++ match l with
         | [] => closing
         | _ :: _ => "," ++ join closing l
         end.
Proof. now destruct l. Qed.

Lemma print_member_eq (l : list (string * value)) :
  print (JObj l) = "{" ++ join "}" (map print_member l).
Proof. reflexivity. Qed.

(** Parsing a printed value gives the value back, whatever text follows. *)
Lemma parse_print_fuel (n : nat) :
  (forall v rest,
      (String.length (print v) < n)%nat -> wf v = true -> number_end rest = true ->
      parse_value n (print v ++ rest) = Some (v, rest))
  /\ (forall x l rest,
      (String.length (join "]" (map print (x :: l))) < n)%nat ->
      forallb wf (x :: l) = true ->
      parse_elements n (join "]" (map print (x :: l)) ++ rest) = Some (x :: l, rest))
  /\ (forall kv l rest,
      (String.length (join "}" (map print_member (kv :: l))) < n)%nat ->
      forallb (fun kv : string * value => let (_, x) := kv in wf x) (kv :: l) = true ->
      parse_members n (join "}" (map print_member (kv :: l)) ++ rest)
      = Some (kv :: l, rest)).
Proof.
  induction n as [|m (IHv & IHe & IHm)].
  { repeat split; intros; lia. }
  split; [| split].
  - (* values *)
    intros v rest Hlen Hwf Hend.
    destruct v as [|[|]|z|s|l|l]; try reflexivity.
    + (* numbers *)
      destruct (show_Z_head z) as (c & s & E & H).
      destruct (number_head c H) as (Hws & Hn & Ht & Hf & Hq & Ha & Ho & _).
      pose proof (parse_number_show z rest Hend) as Hp.
      cbn [print] in *. rewrite E in Hp |- *.
      cbn [parse_value append]. rewrite skip_ws_head by exact Hws.
      rewrite Hn, Ht, Hf, Hq, Ha, Ho.
      change (String c (s ++ rest)) with (String c s ++ rest). now rewrite Hp.
    + (* strings *)
      destruct (parse_chars_quote s rest) as (body & E & Hp).
      cbn [print]. rewrite E. cbn [parse_value]. rewrite skip_ws_head by reflexivity.
      cbn. now rewrite Hp.
    + (* arrays *)
      destruct l as [|x l]; [reflexivity |].
      cbn [print] in *. cbn [append parse_value]. rewrite skip_ws_head by reflexivity.
      cbn [Ascii.eqb Bool.eqb dquote].
      rewrite length_append in Hlen. change (String.length "[") with 1%nat in Hlen.
      destruct (print_head x) as (c & s & E & Hws & Hc).
      assert (Hpeek : peek "]" (join "]" (map print (x :: l)) ++ rest) = None).
      { cbn [map]. rewrite join_cons, E. cbn [append]. now apply peek_miss. }
      rewrite Hpeek.
      rewrite (IHe x l rest); [reflexivity | lia | exact Hwf].
    + (* objects *)
      destruct l as [|kv l]; [reflexivity |].
      rewrite print_member_eq in *. cbn [append parse_value].
      rewrite skip_ws_head by reflexivity.
      rewrite length_append in Hlen. change (String.length "{") with 1%nat in Hlen.
      cbn [wf] in Hwf. apply andb_true_iff in Hwf as [Hd Hwf].
      assert (Hpeek : peek "}" (join "}" (map print_member (kv :: l)) ++ rest) = None).
      { cbn [map]. rewrite join_cons. destruct kv as [k x]. reflexivity. }
      rewrite Hpeek.
      rewrite (IHm kv l rest); [| lia | exact Hwf].
      now rewrite obj_of_members_distinct.
  - (* elements *)
    intros x l rest Hlen Hwf.
    cbn [forallb] in Hwf. apply andb_true_iff in Hwf as [Hx Hl].
    cbn [parse_elements].
    destruct l as [|y l].
    + cbn [map join] in *. rewrite length_append in Hlen. rewrite append_assoc.
      change (String.length "]") with 1%nat in Hlen.
      rewrite (IHv x); [| lia | exact Hx | reflexivity].
      reflexivity.
    + cbn [map] in *. rewrite join_cons in *. rewrite !length_append in Hlen.
      change (String.length ",") with 1%nat in Hlen.
      rewrite !append_assoc.
      rewrite (IHv x); [| lia | exact Hx | reflexivity].
      cbn [append]. rewrite peek_hit by reflexivity.
      rewrite (IHe y l rest); [reflexivity | cbn [map]; lia | exact Hl].
  - (* members *)
    intros [k x] l rest Hlen Hwf.
    cbn [forallb] in Hwf. apply andb_true_iff in Hwf as [Hx Hl].
    cbn [parse_members].
    destruct l as [|kv l].
    + cbn [map join print_member] in *. rewrite !length_append in Hlen.
      change (String.length "}") with 1%nat in Hlen.
      rewrite !append_assoc.
      destruct (parse_chars_quote k (":" ++ print x ++ "}" ++ rest)) as (body & E & Hp).
      rewrite E, peek_hit, Hp by reflexivity.
      cbn [append]. rewrite peek_hit by reflexivity.
      rewrite (IHv x); [| lia | exact Hx | reflexivity].
      reflexivity.
    + cbn [map] in *. rewrite join_cons in *. cbn [print_member] in Hlen |- *.
      rewrite !length_append in Hlen. change (String.length ",") with 1%nat in Hlen.
      rewrite !append_assoc.
      destruct (parse_chars_quote k
        (":" ++ print x ++ "," ++ join "}" (print_member kv :: map print_member l) ++ rest))
        as (body & E & Hp).
      rewrite E, peek_hit, Hp by reflexivity.
      cbn [append]. rewrite peek_hit by reflexivity.
      rewrite (IHv x); [| lia | exact Hx | reflexivity].
      rewrite peek_hit by reflexivity.
      rewrite (IHm kv l rest); [reflexivity | cbn [map]; lia | exact Hl].
Qed.

(** [JSON.parse(JSON.stringify(v))] is [v]. *)
Lemma parse_stringify (v : value) :
  wf v = true -> parse (stringify v) = Some v.
Proof.
  intros Hwf. unfold parse, stringify.
  destruct (parse_print_fuel (S (String.length (print v)))) as (Hv & _ & _).
  specialize (Hv v EmptyString (Nat.lt_succ_diag_r _) Hwf eq_refl).
  rewrite append_nil_r in Hv. now rewrite Hv.
Qed.

(* ================================================================= *)
(** * The typed view of [this.skillsData] *)

Lemma asSkillRecord_toJSON (r : SkillRecord) : asSkillRecord (record_toJSON r) = Some r.
Proof. destruct r as [n l i [y|] [d|]]; reflexivity. Qed.

Lemma all_some_map {A B : Type} (f : A -> B) (g : B -> option A) (l : list A) :
  (forall a, g (f a) = Some a) -> all_some (map g (map f l)) = Some l.
Proof.
  intros H. induction l as [|a l IH]; simpl; [reflexivity |].
  now rewrite H, IH.
Qed.

Lemma asCategory_toJSON (c : string * list SkillRecord) :
  asCategory (category_toJSON c) = Some c.
Proof.
  destruct c as [k l]. unfold asCategory, category_toJSON. simpl.
  now rewrite (all_some_map _ _ l asSkillRecord_toJSON).
Qed.

Lemma asSkillsData_toJSON (d : SkillsData) : asSkillsData (toJSON d) = Some d.
Proof.
  destruct d as [cats]. unfold asSkillsData, toJSON. simpl.
  now rewrite (all_some_map _ _ cats asCategory_toJSON).
Qed.

Lemma truthy_toJSON (d : SkillsData) : JSON.truthy (toJSON d) = true.
Proof. reflexivity. Qed.

Lemma wf_record_toJSON (r : SkillRecord) : JSON.wf (record_toJSON r) = true.
Proof. destruct r as [n l i [y|] [d|]]; reflexivity. Qed.

Lemma wf_toJSON (d : SkillsData) : valid d = true -> JSON.wf (toJSON d) = true.
Proof.
  destruct d as [cats]. unfold valid, toJSON. cbn [skills]. intros Hd.
  cbn [JSON.wf JSON.distinct map fst existsb negb forallb andb].
  rewrite !andb_true_r.
  replace (map fst (map category_toJSON cats)) with (map fst cats)
    by (rewrite map_map; reflexivity).
  rewrite Hd. cbn [andb]. clear Hd.
  induction cats as [|[k l] cats IH]; cbn [map forallb]; [reflexivity |].
  rewrite IH, andb_true_r. cbn [category_toJSON snd JSON.wf].
  induction l as [|r l IHl]; cbn [map forallb]; [reflexivity |].
  now rewrite wf_record_toJSON, IHl.
Qed.

(** The document survives [JSON.stringify] and [JSON.parse]. *)
Lemma parse_stringify_toJSON (d : SkillsData) :
  valid d = true -> JSON.parse (JSON.stringify (toJSON d)) = Some (toJSON d).
Proof. intros H. apply parse_stringify. now apply wf_toJSON. Qed.

Lemma stringify_toJSON_nonempty (d : SkillsData) :
  (JSON.stringify (toJSON d) =? EmptyString)%string = false.
Proof. reflexivity. Qed.

(* ================================================================= *)
(** * Objects, the store and the document *)

Lemma set_property_absent {A : Type} (obj : list (string * A)) (key : string) (a : A) :
  own_property obj key = None -> set_property obj key a = obj.
Proof.
  induction obj as [|[k a'] obj IH]; simpl; [reflexivity |].
  destruct (k =? key)%string; [discriminate |]. intros H. now rewrite IH.
Qed.

Lemma own_property_set_same {A : Type} (obj : list (string * A)) (key : string) (a a0 : A) :
  own_property obj key = Some a0 -> own_property (set_property obj key a) key = Some a.
Proof.
  induction obj as [|[k a'] obj IH]; simpl; [discriminate |].
  destruct (k =? key)%string eqn:E; simpl; rewrite E; [reflexivity | exact IH].
Qed.

Lemma own_property_set_other {A : Type} (obj : list (string * A)) (key key' : string) (a : A) :
  key <> key' -> own_property (set_property obj key a) key' = own_property obj key'.
Proof.
  intros Hne. induction obj as [|[k a'] obj IH]; simpl; [reflexivity |].
  destruct (k =? key)%string eqn:E; simpl.
  - apply String.eqb_eq in E. subst k.
    now destruct (String.eqb_spec key key').
  - now rewrite IH.
Qed.

Lemma found_set_property (doc : list (string * string)) (key key' text : string) :
  found (own_property (set_property doc key text) key') = found (own_property doc key').
Proof.
  induction doc as [|[k v] doc IH]; simpl; [reflexivity |].
  destruct (k =? key)%string; simpl; destruct (k =? key')%string; auto.
Qed.

Lemma own_property_storage_put (l : list (string * string)) (key text : string) :
  own_property (storage_put l key text) key = Some text.
Proof.
  induction l as [|[k v] l IH]; simpl.
  - now rewrite String.eqb_refl.
  - destruct (k =? key)%string eqn:E; simpl; rewrite E; [reflexivity | exact IH].
Qed.

Lemma with_document_same (w : World) : with_document (document w) w = w.
Proof. now destruct w. Qed.

(** Assignment to the content of an element that may be missing. *)
Lemma set_if_found (id text : string) (e : option string) (w : World) :
  found e = found (own_property (document w) id) ->
  (if found e then set_content id text else ret tt) w
  = Normal tt (with_document (set_property (document w) id text) w).
Proof.
  intros ->. unfold set_content, ret.
  destruct (own_property (document w) id) eqn:E; simpl; [reflexivity |].
  now rewrite set_property_absent, with_document_same.
Qed.

(* ================================================================= *)
(** * The methods, one by one *)

(** The opening of a method that reads [this.skillsData]: the null check
    passes and the typed view is the document of [Hdata]. *)
Ltac read_document method Hdata :=
  unfold method, bind at 1, get_skillsData;
  rewrite Hdata, truthy_toJSON;
  cbn [negb];
  unfold bind at 1, typed;
  rewrite asSkillsData_toJSON.

Lemma renderTechnicalSkills_spec (category : string) (l : list SkillRecord) (w : World) :
  renderTechnicalSkills category l w
  = Normal tt (with_document
                 (set_property (document w) (category ++ "-skills")
                    (template (map createSkillElement l))) w).
Proof.
  unfold renderTechnicalSkills, bind, getElementById.
  destruct (own_property (document w) (category ++ "-skills")) eqn:E; [reflexivity |].
  unfold ret. now rewrite set_property_absent, with_document_same.
Qed.

Lemma renderSoftSkills_spec (l : list SkillRecord) (w : World) :
  renderSoftSkills l w
  = Normal tt (with_document
                 (set_property (document w) "softskills-badges"
                    (template (map createSoftSkillBadge l))) w).
Proof.
  unfold renderSoftSkills, bind, getElementById.
  destruct (own_property (document w) "softskills-badges") eqn:E; [reflexivity |].
  unfold ret. now rewrite set_property_absent, with_document_same.
Qed.

Lemma with_document_twice (doc doc' : list (string * string)) (w : World) :
  with_document doc (with_document doc' w) = with_document doc w.
Proof. reflexivity. Qed.

Section OnDocument.

Variable d : SkillsData.
Variable w : World.
Hypothesis Hd : skillsData (this w) = toJSON d.

(** [renderSkills] on a document: it returns, and only the page changes. *)
Lemma renderSkills_spec :
  renderSkills w = Normal tt (with_document (render_document d (document w)) w).
Proof.
  read_document renderSkills Hd.
  assert (Hone : forall category w0,
    existsb (String.eqb category) Object_prototype = false ->
    match get_property (skills d) category with
    | Own skills =>
        if (category =? "softSkills")%string
        then renderSoftSkills skills
        else renderTechnicalSkills category skills
    | Inherited => throw (TypeError "skills.map is not a function")
    | Undefined => ret tt
    end w0 = Normal tt (with_document (render_category d (document w0) category) w0)).
  { intros category w0 Hp. unfold get_property, render_category. rewrite Hp.
    destruct (own_property (skills d) category) as [l|].
    - destruct (category =? "softSkills")%string;
        [apply renderSoftSkills_spec | apply renderTechnicalSkills_spec].
    - unfold ret. now rewrite with_document_same. }
  unfold render_document. cbn [forEach fold_left]. unfold bind.
  rewrite !Hone by reflexivity. cbn [document with_document].
  rewrite !with_document_twice. reflexivity.
Qed.

(** [calculateAndDisplayStats] on a document: likewise. *)
Lemma calculateAndDisplayStats_spec :
  calculateAndDisplayStats w
  = Normal tt (with_document (stats_document (count_all (skills d)) (document w)) w).
Proof.
  read_document calculateAndDisplayStats Hd. cbv zeta.
  unfold bind at 1 2 3, getElementById.
  unfold stats_document. set (c := count_all (skills d)).
  unfold bind at 1. rewrite set_if_found by reflexivity.
  unfold bind at 1.
  assert (Havg :
    (if found (own_property (document w) "avg-proficiency") && (countedSkills c >? 0)
     then set_content "avg-proficiency"
            (show_number (Math_round_quotient (totalProficiency c) (countedSkills c)) ++ "%")
     else ret tt)
      (with_document (set_property (document w) "total-skills" (show_Z (totalSkills c))) w)
    = Normal tt
        (with_document
           (if countedSkills c >? 0
            then set_property
                   (set_property (document w) "total-skills" (show_Z (totalSkills c)))
                   "avg-proficiency"
                   (show_number (Math_round_quotient (totalProficiency c) (countedSkills c))
                    ++ "%")
            else set_property (document w) "total-skills" (show_Z (totalSkills c))) w)).
  { destruct (countedSkills c >? 0).
    - rewrite andb_true_r.
      rewrite (set_if_found "avg-proficiency"); [reflexivity |].
      cbn [document with_document]. now rewrite found_set_property.
    - now rewrite andb_false_r. }
  rewrite Havg. rewrite set_if_found.
  - reflexivity.
  - cbn [document with_document].
    destruct (countedSkills c >? 0); now rewrite ?found_set_property.
Qed.

End OnDocument.

(** [saveToLocalStorage] returns whatever the store does. *)
Lemma saveToLocalStorage_spec (w : World) :
  let text := JSON.stringify (skillsData (this w)) in
  let stored := storage_put (items (localStorage w)) "portfolio-skills" text in
  saveToLocalStorage w
  = if (storage_usage stored <=? quota (localStorage w))%N
    then Normal tt (with_items stored w)
    else Normal tt
           (with_console
              (console w ++
               [{| severity := LogWarn;
                   message := "Could not save skills to localStorage:";
                   detail := Caught QuotaExceededError |}])%list w).
Proof.
  cbv zeta. unfold saveToLocalStorage, try_catch, bind, get_skillsData, localStorage_setItem.
  now destruct (_ <=? _)%N.
Qed.

(* ================================================================= *)
(** * Proficiency tiers *)

(** C5.  For every level L from 0 to 100 the tier label is one of Expert,
    Advanced, Intermediate and Beginner, and which one is decided by the
    lower bounds 90, 75 and 60, each inclusive: Expert exactly from 90 on,
    Advanced exactly from 75 to 89, Intermediate exactly from 60 to 74,
    Beginner exactly below 60. *)
Theorem getProficiencyLabel_tiers (L : Z) :
  0 <= L <= 100 ->
  In (getProficiencyLabel L) ["Expert"; "Advanced"; "Intermediate"; "Beginner"]
  /\ (getProficiencyLabel L = "Expert" <-> 90 <= L)
  /\ (getProficiencyLabel L = "Advanced" <-> 75 <= L <= 89)
  /\ (getProficiencyLabel L = "Intermediate" <-> 60 <= L <= 74)
  /\ (getProficiencyLabel L = "Beginner" <-> L < 60).
Proof.
  intros _. unfold getProficiencyLabel.
  destruct (Z.geb_spec L 90) as [H90|H90];
    [| destruct (Z.geb_spec L 75) as [H75|H75];
       [| destruct (Z.geb_spec L 60) as [H60|H60]]].
  all: split; [simpl; tauto |].
  all: repeat apply conj; intros; try discriminate; try lia; reflexivity.
Qed.

Lemma getProficiencyLabel_tiers_at_75 :
  0 <= 75 <= 100 /\ getProficiencyLabel 75 = "Advanced".
Proof.
  assert (H : 0 <= 75 <= 100) by lia.
  split; [exact H |].
  destruct (getProficiencyLabel_tiers 75 H) as (_ & _ & Hadv & _).
  apply Hadv. lia.
Defined.

(* ================================================================= *)
(** * Loading *)



(* ================================================================= *)
(** * The store *)

(** [loadFromLocalStorage], case by case on what the store holds. *)
Lemma loadFromLocalStorage_spec (w : World) :
  loadFromLocalStorage w
  = match own_property (items (localStorage w)) "portfolio-skills" with
    | None => Normal false w
    | Some text =>
        if (text =? EmptyString)%string then Normal false w
        else
          match JSON.parse text with
          | Some v => Normal true (with_skillsData v w)
          | None =>
              Normal false
                (with_console
                   (console w ++
                    [{| severity := LogWarn;
                        message := "Could not load skills from localStorage:";
                        detail := Caught SyntaxError |}])%list w)
          end
    end.
Proof.
  unfold loadFromLocalStorage, try_catch, bind, localStorage_getItem, JSON_parse.
  destruct (own_property (items (localStorage w)) "portfolio-skills") as [text|];
    [| reflexivity].
  destruct (text =? EmptyString)%string; [reflexivity |].
  cbn [negb]. now destruct (JSON.parse text).
Qed.







(** When the fetch succeeds and the body is JSON, [loadSkillsData] stores
    the parsed value as it is, without a look at its shape. *)
Theorem loadSkillsData_stores_body (network : string -> FetchOutcome) (w : World)
  (response : Response) (v : JSON.value) :
  network "data/skills.json" = FetchFulfilled response ->
  ok response = true ->
  JSON.parse (body response) = Some v ->
  loadSkillsData network w = Normal tt (with_skillsData v w).
Proof.
  intros Hnet Hok Hbody.
  unfold loadSkillsData, try_catch, bind, fetch, response_json, JSON_parse.
  rewrite Hnet. unfold ret at 1. rewrite Hok. cbn [negb]. unfold ret at 1.
  now rewrite Hbody.
Qed.

Lemma loadSkillsData_stores_body_null :
  loadSkillsData serves_null fallback_world
  = Normal tt (with_skillsData JSON.JNull fallback_world).
Proof.
  apply (loadSkillsData_stores_body serves_null fallback_world
           {| ok := true; status := 200; body := "null" |} JSON.JNull);
    reflexivity.
Defined.

(* ================================================================= *)
(** * Updating a level *)

Lemma clamp_min_max (x : Z) : Z.min 100 (Z.max 0 x) = clamp x 0 100.
Proof.
  unfold clamp. destruct (Z.ltb_spec x 0), (Z.ltb_spec 100 x); lia.
Qed.

Lemma find_skill_assign_level (skillName : string) (v : Z) (l : list SkillRecord)
  (s : SkillRecord) :
  find_skill skillName l = Some s ->
  find_skill skillName (assign_level skillName v l)
  = Some {| name := name s; level := v; icon := icon s; years := years s;
            description := description s |}.
Proof.
  unfold find_skill. induction l as [|r l IH]; simpl; [discriminate |].
  destruct (name r =? skillName)%string eqn:E; simpl; rewrite E.
  - now intros [= ->].
  - exact IH.
Qed.

Lemma length_assign_level (skillName : string) (v : Z) (l : list SkillRecord) :
  List.length (assign_level skillName v l) = List.length l.
Proof.
  induction l as [|r l IH]; simpl; [reflexivity |].
  destruct (name r =? skillName)%string; simpl; now rewrite ?IH.
Qed.

Lemma in_range_assign_level (skillName : string) (v : Z) (l : list SkillRecord) :
  0 <= v <= 100 ->
  forallb level_in_range l = true ->
  forallb level_in_range (assign_level skillName v l) = true.
Proof.
  intros Hv. induction l as [|r l IH]; simpl; [reflexivity |].
  intros H. apply andb_true_iff in H as [Hr Hl].
  destruct (name r =? skillName)%string; simpl.
  - rewrite Hl, andb_true_r. unfold level_in_range. simpl.
    apply andb_true_iff. split; apply Z.leb_le; lia.
  - now rewrite Hr, IH.
Qed.

Lemma in_range_set_property (cats : SkillCategorySet) (category : string)
  (l : list SkillRecord) :
  forallb level_in_range (List.concat (map snd cats)) = true ->
  forallb level_in_range l = true ->
  forallb level_in_range (List.concat (map snd (set_property cats category l))) = true.
Proof.
  intros Hcats Hl. induction cats as [|[k l0] cats IH]; simpl in *; [reflexivity |].
  rewrite forallb_app in Hcats. apply andb_true_iff in Hcats as [H0 Hrest].
  destruct (k =? category)%string; simpl; rewrite forallb_app.
  - now rewrite Hl, Hrest.
  - now rewrite H0, IH.
Qed.

Lemma in_range_category (cats : SkillCategorySet) (category : string)
  (l : list SkillRecord) :
  forallb level_in_range (List.concat (map snd cats)) = true ->
  own_property cats category = Some l ->
  forallb level_in_range l = true.
Proof.
  induction cats as [|[k l0] cats IH]; simpl; [discriminate |].
  rewrite forallb_app. intros H. apply andb_true_iff in H as [H0 Hrest].
  destruct (k =? category)%string; [now intros [= <-] | now apply IH].
Qed.

(** What a successful [updateSkillLevel] runs after the assignment. *)
Lemma after_assignment (d : SkillsData) (w : World) :
  skillsData (this w) = toJSON d ->
  exists w1,
    saveToLocalStorage w = Normal tt w1
    /\ (renderSkills ;; calculateAndDisplayStats ;; ret true) w1
       = Normal true
           (with_document
              (stats_document (count_all (skills d))
                 (render_document d (document w))) w1)
    /\ this w1 = this w /\ document w1 = document w.
Proof.
  intros Hd. rewrite saveToLocalStorage_spec. cbv zeta.
  destruct (_ <=? _)%N; eexists; (split; [reflexivity |]).
  all: split; [| split; reflexivity].
  all: unfold bind at 1; rewrite (renderSkills_spec d) by exact Hd.
  all: unfold bind at 1; rewrite (calculateAndDisplayStats_spec d) by exact Hd.
  all: reflexivity.
Qed.

(** C2.  On a known category and a name that one of its records bears,
    [updateSkillLevel] returns [true] and the record [find] meets, the first
    of that name, now has the level [newLevel] brought into the interval
    from 0 to 100, its other fields as before: 150 gives 100, -10 gives 0,
    a level from 0 to 100 is stored as it is.  The update then re-renders
    and recomputes the statistics.  If every level of the data was between
    0 and 100 before, every level is so after. *)
Theorem updateSkillLevel_clamps (d : SkillsData) (w : World)
  (category skillName : string) (newLevel : Z)
  (records : list SkillRecord) (s : SkillRecord) :
  skillsData (this w) = toJSON d ->
  own_property (skills d) category = Some records ->
  find_skill skillName records = Some s ->
  exists (w' : World) (d' : SkillsData) (records' : list SkillRecord),
    updateSkillLevel category skillName newLevel w = Normal true w'
    /\ skillsData (this w') = toJSON d'
    /\ own_property (skills d') category = Some records'
    /\ find_skill skillName records'
       = Some {| name := name s; level := clamp newLevel 0 100; icon := icon s;
                 years := years s; description := description s |}
    /\ List.length records' = List.length records
    /\ 0 <= clamp newLevel 0 100 <= 100
    /\ clamp 150 0 100 = 100
    /\ clamp (-10) 0 100 = 0
    /\ (0 <= newLevel <= 100 -> clamp newLevel 0 100 = newLevel)
    /\ (levels_in_range d = true -> levels_in_range d' = true)
    /\ document w'
       = stats_document (count_all (skills d')) (render_document d' (document w)).
Proof.
  intros Hdata Hcat Hfind.
  assert (Hclamp : 0 <= clamp newLevel 0 100 <= 100).
  { unfold clamp. destruct (Z.ltb_spec newLevel 0), (Z.ltb_spec 100 newLevel); lia. }
  set (records' := assign_level skillName (clamp newLevel 0 100) records).
  set (d' := {| skills := set_property (skills d) category records' |}).
  destruct (after_assignment d' (with_skillsData (toJSON d') w) eq_refl)
    as (w1 & Hsave & Hrest & Hthis & Hdoc).
  eexists _, d', records'.
  split.
  { read_document updateSkillLevel Hdata.
    unfold get_property. rewrite Hcat, Hfind, clamp_min_max.
    unfold bind at 1, set_skillsData. fold records'. fold d'.
    unfold bind at 1. rewrite Hsave. exact Hrest. }
  cbn [this with_document]. rewrite Hthis.
  split; [reflexivity |].
  split; [exact (own_property_set_same _ _ _ _ Hcat) |].
  split; [now apply find_skill_assign_level |].
  split; [apply length_assign_level |].
  split; [exact Hclamp |].
  split; [reflexivity |].
  split; [reflexivity |].
  split.
  { intros H. unfold clamp.
    destruct (Z.ltb_spec newLevel 0), (Z.ltb_spec 100 newLevel); lia. }
  split.
  { unfold levels_in_range, all_records. cbn [skills d']. intros Hrange.
    apply in_range_set_property; [exact Hrange |].
    apply in_range_assign_level; [exact Hclamp |].
    now apply (in_range_category (skills d) category). }
  reflexivity.
Qed.

Lemma updateSkillLevel_clamps_docker_150 :
  exists w' d' records',
    updateSkillLevel "tools" "Docker" 150 fallback_world = Normal true w'
    /\ skillsData (this w') = toJSON d'
    /\ own_property (skills d') "tools" = Some records'
    /\ find_skill "Docker" records' = Some (skill "Docker" 100 "🐳" (Some 2)).
Proof.
  assert (Hdata : skillsData (this fallback_world) = toJSON getFallbackSkillsData)
    by reflexivity.
  assert (Hcat : own_property (skills getFallbackSkillsData) "tools"
                 = Some [ skill "Git" 90 "📝" (Some 4); skill "Docker" 75 "🐳" (Some 2);
                          skill "AWS" 70 "☁️" (Some 2) ]) by reflexivity.
  assert (Hfind : find_skill "Docker"
                    [ skill "Git" 90 "📝" (Some 4); skill "Docker" 75 "🐳" (Some 2);
                      skill "AWS" 70 "☁️" (Some 2) ]
                  = Some (skill "Docker" 75 "🐳" (Some 2))) by reflexivity.
  destruct (updateSkillLevel_clamps getFallbackSkillsData fallback_world "tools" "Docker"
              150 _ _ Hdata Hcat Hfind)
    as (w' & d' & records' & Hrun & Hthis & Hown & Hfound & _).
  exists w', d', records'. repeat split; assumption.
Defined.

(** C3, at the input where the code leaves the claim.  ["toString"] is no
    key of the fallback data, yet [updateSkillLevel] neither returns [false]
    nor logs: the lookup finds the function every object inherits, and the
    call of [find] on it throws a [TypeError].  Nothing is written. *)
Theorem updateSkillLevel_inherited_key_throws :
  own_property (skills getFallbackSkillsData) "toString" = None
  /\ updateSkillLevel "toString" "Git" 50 fallback_world
     = Throw (TypeError "this.skillsData.skills[category].find is not a function")
         fallback_world.
Proof. split; reflexivity. Qed.

(** The same on every document: a category that is no key of the data but
    a name of [Object.prototype] makes [updateSkillLevel] throw, and leaves
    the world as it was. *)
Theorem updateSkillLevel_inherited_throws (d : SkillsData) (w : World)
  (category skillName : string) (newLevel : Z) :
  skillsData (this w) = toJSON d ->
  own_property (skills d) category = None ->
  existsb (String.eqb category) Object_prototype = true ->
  updateSkillLevel category skillName newLevel w
  = Throw (TypeError "this.skillsData.skills[category].find is not a function") w.
Proof.
  intros Hdata Hown Hproto. read_document updateSkillLevel Hdata.
  unfold get_property. now rewrite Hown, Hproto.
Qed.

Lemma updateSkillLevel_inherited_throws_constructor :
  updateSkillLevel "constructor" "HTML5" 80 fallback_world
  = Throw (TypeError "this.skillsData.skills[category].find is not a function")
      fallback_world.
Proof.
  apply (updateSkillLevel_inherited_throws getFallbackSkillsData fallback_world
           "constructor" "HTML5" 80); reflexivity.
Defined.

(** What C3 says does hold off the inherited names: on a category that is
    neither a key of the data nor a name of [Object.prototype], and on a
    name that no record of the category bears, [updateSkillLevel] returns
    [false] and writes nothing but one line of the console. *)
Theorem updateSkillLevel_not_found (d : SkillsData) (w : World)
  (category skillName : string) (newLevel : Z) :
  skillsData (this w) = toJSON d ->
  match own_property (skills d) category with
  | None => existsb (String.eqb category) Object_prototype = false
  | Some records => find_skill skillName records = None
  end ->
  exists entry,
    updateSkillLevel category skillName newLevel w
    = Normal false (with_console (console w ++ [entry])%list w)
    /\ severity entry = LogError.
Proof.
  intros Hdata Hmiss. read_document updateSkillLevel Hdata.
  unfold get_property.
  destruct (own_property (skills d) category) as [records|].
  - rewrite Hmiss. eexists. split; reflexivity.
  - rewrite Hmiss. eexists. split; reflexivity.
Qed.

Lemma updateSkillLevel_not_found_design :
  exists entry,
    updateSkillLevel "design" "Git" 50 fallback_world
    = Normal false (with_console (console fallback_world ++ [entry])%list fallback_world)
    /\ severity entry = LogError.
Proof.
  apply (updateSkillLevel_not_found getFallbackSkillsData fallback_world "design" "Git" 50);
    reflexivity.
Defined.

(* ================================================================= *)
(** * Statistics *)

Lemma fold_count_skill (l : list SkillRecord) (acc : Counters) :
  fold_left count_skill l acc
  = {| totalSkills := totalSkills acc + Z.of_nat (List.length l);
       totalProficiency := totalProficiency acc + sum_Z (map level l);
       totalYears := totalYears acc + sum_Z (map years_or_zero l);
       countedSkills := countedSkills acc + Z.of_nat (List.length l) |}.
Proof.
  revert acc. induction l as [|r l IH]; intros acc.
  - destruct acc. simpl. f_equal; lia.
  - cbn [fold_left]. rewrite IH. unfold count_skill.
    cbn [totalSkills totalProficiency totalYears countedSkills List.length map].
    change (sum_Z (level r :: map level l)) with (level r + sum_Z (map level l)).
    change (sum_Z (years_or_zero r :: map years_or_zero l))
      with (years_or_zero r + sum_Z (map years_or_zero l)).
    rewrite Nat2Z.inj_succ. unfold years_or_zero.
    f_equal; try lia.
    destruct (years r) as [y|]; [| lia].
    destruct (Z.eqb_spec y 0); lia.
Qed.

Lemma fold_categories (cats : list (list SkillRecord)) (acc : Counters) :
  fold_left (fun acc category => fold_left count_skill category acc) cats acc
  = fold_left count_skill (List.concat cats) acc.
Proof.
  revert acc. induction cats as [|c cats IH]; intros acc; simpl; [reflexivity |].
  now rewrite IH, fold_left_app.
Qed.

Lemma count_all_spec (d : SkillsData) :
  count_all (skills d)
  = {| totalSkills := Z.of_nat (List.length (all_records d));
       totalProficiency := sum_Z (map level (all_records d));
       totalYears := sum_Z (map years_or_zero (all_records d));
       countedSkills := Z.of_nat (List.length (all_records d)) |}.
Proof.
  unfold count_all. now rewrite fold_categories, fold_count_skill.
Qed.

(** [Math.round] of a quotient is the nearest integer, a half going up. *)
Lemma Math_round_quotient_nearest (a b : Z) :
  match Math_round_quotient a b with
  | Finite q => b <> 0 /\ (0 < b -> 2 * a - b < 2 * b * q <= 2 * a + b)
  | _ => b = 0
  end.
Proof.
  unfold Math_round_quotient. destruct (Z.eqb_spec b 0) as [->|Hb].
  - now destruct (a =? 0).
  - split; [exact Hb |]. intros Hpos.
    pose proof (Z.div_mod (2 * a + b) (2 * b) ltac:(lia)) as Hdm.
    pose proof (Z.mod_pos_bound (2 * a + b) (2 * b) ltac:(lia)) as Hmod.
    lia.
Qed.

Lemma shown_total_skills (c : Counters) (doc : list (string * string)) :
  found (own_property doc "total-skills") = true ->
  own_property (stats_document c doc) "total-skills" = Some (show_Z (totalSkills c)).
Proof.
  intros H. unfold stats_document.
  rewrite own_property_set_other by discriminate.
  destruct (own_property doc "total-skills") as [old|] eqn:E; [| discriminate H].
  destruct (countedSkills c >? 0).
  - rewrite own_property_set_other by discriminate.
    now apply own_property_set_same with (a0 := old).
  - now apply own_property_set_same with (a0 := old).
Qed.

Lemma shown_total_years (c : Counters) (doc : list (string * string)) :
  found (own_property doc "total-years") = true ->
  own_property (stats_document c doc) "total-years" = Some (show_Z (totalYears c)).
Proof.
  intros H. unfold stats_document.
  destruct (own_property doc "total-years") as [old|] eqn:E; [| discriminate H].
  apply own_property_set_same with (a0 := old).
  destruct (countedSkills c >? 0);
    rewrite ?(own_property_set_other _ "avg-proficiency") by discriminate;
    now rewrite own_property_set_other by discriminate.
Qed.

Lemma shown_average (c : Counters) (doc : list (string * string)) :
  own_property (stats_document c doc) "avg-proficiency"
  = if found (own_property doc "avg-proficiency") && (countedSkills c >? 0)
    then Some (show_number (Math_round_quotient (totalProficiency c) (countedSkills c))
               ++ "%")
    else own_property doc "avg-proficiency".
Proof.
  unfold stats_document. rewrite own_property_set_other by discriminate.
  destruct (countedSkills c >? 0).
  - rewrite andb_true_r.
    destruct (own_property doc "avg-proficiency") as [old|] eqn:E; cbn [found].
    + apply own_property_set_same with (a0 := old).
      now rewrite own_property_set_other by discriminate.
    + rewrite set_property_absent; now rewrite own_property_set_other by discriminate.
  - rewrite andb_false_r. now rewrite own_property_set_other by discriminate.
Qed.

(** C6.  On every category set [calculateAndDisplayStats] computes
    [totalSkills], the number of records of all categories;
    the average proficiency, the mean of their levels rounded to the nearest
    integer (there is a mean when there is a record); and [totalYears], the
    sum of their years, a record without years counting as 0.  It writes
    each into its element of the page, where that element exists. *)
Theorem calculateAndDisplayStats_aggregates (d : SkillsData) (w : World) :
  skillsData (this w) = toJSON d ->
  let c := count_all (skills d) in
  let n := Z.of_nat (List.length (all_records d)) in
  let total := sum_Z (map level (all_records d)) in
  totalSkills c = n
  /\ countedSkills c = n
  /\ totalProficiency c = total
  /\ totalYears c = sum_Z (map years_or_zero (all_records d))
  /\ match Math_round_quotient total n with
     | Finite average => 0 < n /\ 2 * total - n < 2 * n * average <= 2 * total + n
     | _ => n = 0
     end
  /\ exists w',
       calculateAndDisplayStats w = Normal tt w'
       /\ (found (own_property (document w) "total-skills") = true ->
           own_property (document w') "total-skills" = Some (show_Z n))
       /\ (found (own_property (document w) "avg-proficiency") = true -> 0 < n ->
           own_property (document w') "avg-proficiency"
           = Some (show_number (Math_round_quotient total n) ++ "%"))
       /\ (found (own_property (document w) "total-years") = true ->
           own_property (document w') "total-years"
           = Some (show_Z (sum_Z (map years_or_zero (all_records d))))).
Proof.
  intros Hdata. cbv zeta. rewrite count_all_spec.
  cbn [totalSkills countedSkills totalProficiency totalYears].
  repeat (split; [reflexivity |]).
  split.
  { pose proof (Math_round_quotient_nearest (sum_Z (map level (all_records d)))
                  (Z.of_nat (List.length (all_records d)))) as H.
    destruct (Math_round_quotient _ _); [| exact H | exact H].
    destruct H as [Hn H]. assert (0 < Z.of_nat (List.length (all_records d))) by lia.
    auto. }
  eexists. split; [apply (calculateAndDisplayStats_spec d w Hdata) |].
  cbn [document with_document]. rewrite count_all_spec.
  split; [| split].
  - intros H. now rewrite shown_total_skills.
  - intros H Hn. rewrite shown_average, H.
    cbn [countedSkills totalProficiency andb].
    now destruct (Z.gtb_spec (Z.of_nat (List.length (all_records d))) 0); [| lia].
  - intros H. now rewrite shown_total_years.
Qed.

Lemma calculateAndDisplayStats_aggregates_fallback :
  exists w',
    calculateAndDisplayStats fallback_world = Normal tt w'
    /\ own_property (document w') "total-skills" = Some "12"
    /\ own_property (document w') "avg-proficiency" = Some "87%"
    /\ own_property (document w') "total-years" = Some "32".
Proof.
  assert (Hdata : skillsData (this fallback_world) = toJSON getFallbackSkillsData)
    by reflexivity.
  destruct (calculateAndDisplayStats_aggregates getFallbackSkillsData fallback_world Hdata)
    as (_ & _ & _ & _ & _ & w' & Hrun & Hskills & Havg & Hyears).
  exists w'. split; [exact Hrun |].
  split; [exact (Hskills eq_refl) |].
  split; [apply (Havg eq_refl); reflexivity | exact (Hyears eq_refl)].
Defined.

(** C7.  [calculateAndDisplayStats] always returns, and what it leaves in
    the element of the average is either what was there or an integer and a
    percent sign, the latter only when a record was counted: the quotient is
    taken under the guard [countedSkills > 0], never with a zero divisor.
    On a category set without records [totalSkills] is 0, the element of the
    average is left alone, and the two totals show 0. *)
Theorem calculateAndDisplayStats_no_zero_divisor (d : SkillsData) (w : World) :
  skillsData (this w) = toJSON d ->
  (exists w',
     calculateAndDisplayStats w = Normal tt w'
     /\ (own_property (document w') "avg-proficiency"
         = own_property (document w) "avg-proficiency"
         \/ exists average : Z,
              0 < countedSkills (count_all (skills d))
              /\ own_property (document w') "avg-proficiency"
                 = Some (show_Z average ++ "%")))
  /\ (all_records d = [] ->
      totalSkills (count_all (skills d)) = 0
      /\ calculateAndDisplayStats w
         = Normal tt
             (with_document
                (set_property (set_property (document w) "total-skills" "0")
                   "total-years" "0") w)).
Proof.
  intros Hdata. split.
  - eexists. split; [apply (calculateAndDisplayStats_spec d w Hdata) |].
    cbn [document with_document]. rewrite shown_average.
    destruct (found _ && _) eqn:E; [right | now left].
    apply andb_true_iff in E as [_ Hpos]. apply Z.gtb_lt in Hpos.
    pose proof (Math_round_quotient_nearest
                  (totalProficiency (count_all (skills d)))
                  (countedSkills (count_all (skills d)))) as H.
    destruct (Math_round_quotient _ _) as [q| |]; [| lia | lia].
    exists q. split; [lia | reflexivity].
  - intros Hempty. rewrite (calculateAndDisplayStats_spec d w Hdata), count_all_spec.
    rewrite Hempty. split; reflexivity.
Qed.

Lemma calculateAndDisplayStats_no_zero_divisor_empty :
  exists w',
    calculateAndDisplayStats (with_skillsData (toJSON no_records) shown_world)
    = Normal tt w'
    /\ document w'
       = [("total-skills", "0"); ("avg-proficiency", "87%"); ("total-years", "0")].
Proof.
  assert (Hdata : skillsData (this (with_skillsData (toJSON no_records) shown_world))
                  = toJSON no_records) by reflexivity.
  destruct (calculateAndDisplayStats_no_zero_divisor no_records
              (with_skillsData (toJSON no_records) shown_world) Hdata) as [_ H].
  destruct (H eq_refl) as [_ Hrun].
  eexists. split; [exact Hrun | reflexivity].
Defined.

(* ================================================================= *)
(** * Rendering *)

Lemma template_cons (x : string) (l : list string) : template (x :: l) = x ++ template l.
Proof.
  unfold template. destruct l as [|y l]; simpl; [now rewrite append_nil_r | reflexivity].
Qed.

Lemma prefix_append_right (a b c : string) :
  prefix a b = true -> prefix a (b ++ c) = true.
Proof.
  revert b. induction a as [|x a IH]; intros b H; [now destruct (b ++ c) |].
  destruct b as [|y b]; [discriminate H |].
  simpl in *. destruct (ascii_dec x y); [now apply IH | discriminate H].
Qed.

Lemma includes_append_right (needle hay rest : string) :
  includes needle hay = true -> includes needle (hay ++ rest) = true.
Proof.
  induction hay as [|c hay IH]; intros H.
  - simpl in H. rewrite orb_false_r in H. destruct needle; [| discriminate H].
    now destruct rest.
  - cbn [includes] in H. apply orb_true_iff in H as [H | H].
    + pose proof (prefix_append_right needle (String c hay) rest H) as P.
      cbn [append] in P. cbn [append includes]. now rewrite P.
    + cbn [append includes]. rewrite (IH H). apply orb_true_r.
Qed.

(** What one piece of a template includes, the template includes. *)
Lemma includes_template (needle piece : string) (pieces : list string) :
  In piece pieces -> includes needle piece = true ->
  includes needle (template pieces) = true.
Proof.
  intros Hin H. induction pieces as [|p pieces IH]; [destruct Hin |].
  rewrite template_cons. destruct Hin as [-> | Hin].
  - now apply includes_append_right.
  - apply includes_later. now apply IH.
Qed.

Lemma years_label_text (n : Z) :
  years_label n
  = template ["<span "; attr "class" "skill__years"; ">"; years_text n; "</span>"].
Proof.
  unfold years_label, years_text.
  destruct (Z.eqb_spec n 1) as [->|_]; [reflexivity |].
  rewrite !template_cons, !append_assoc. reflexivity.
Qed.

(** C8, as the code has it.  A technical record whose years are defined and
    not 0 is rendered with the years label, whose text is "1 year" for 1 and
    "N years" otherwise; and every record is rendered with its tier label.
    The record Git of level 90 shows "Expert", with 4 years "4 years", with
    1 year "1 year" and not "1 years".  A record whose years are 0 is
    rendered as the same record without years: Git with 0 years has no
    years label. *)
Theorem createSkillElement_years_label (r : SkillRecord) (n : Z) :
  years r = Some n ->
  n <> 0 ->
  includes (years_label n) (createSkillElement r) = true
  /\ years_label n
     = template ["<span "; attr "class" "skill__years"; ">"; years_text n; "</span>"]
  /\ includes (years_text n) (createSkillElement r) = true
  /\ includes (getProficiencyLabel (level r)) (createSkillElement r) = true
  /\ years_text 1 = "1 year"
  /\ years_text 4 = "4 years"
  /\ includes "Expert" (createSkillElement (git (Some 4))) = true
  /\ includes "4 years" (createSkillElement (git (Some 4))) = true
  /\ includes "1 year" (createSkillElement (git (Some 1))) = true
  /\ includes "1 years" (createSkillElement (git (Some 1))) = false
  /\ (forall r0 : SkillRecord,
        years r0 = Some 0 ->
        createSkillElement r0
        = createSkillElement
            {| name := name r0; level := level r0; icon := icon r0; years := None;
               description := description r0 |})
  /\ includes "skill__years" (createSkillElement (git (Some 0))) = false.
Proof.
  intros Hyears Hn.
  assert (Hlabel : includes (years_label n) (createSkillElement r) = true).
  { unfold createSkillElement. rewrite Hyears.
    destruct (Z.eqb_spec n 0) as [E|_]; [contradiction |].
    apply includes_template with (piece := years_label n).
    - cbn [In]. tauto.
    - rewrite <- (append_nil_r (years_label n)) at 2. apply includes_here. }
  split; [exact Hlabel |].
  split; [apply years_label_text |].
  split.
  { unfold createSkillElement. rewrite Hyears.
    destruct (Z.eqb_spec n 0) as [E|_]; [contradiction |].
    apply includes_template with (piece := years_label n).
    - cbn [In]. tauto.
    - rewrite years_label_text.
      apply includes_template with (piece := years_text n).
      + cbn [In]. tauto.
      + rewrite <- (append_nil_r (years_text n)) at 2. apply includes_here. }
  split.
  { unfold createSkillElement.
    apply includes_template with (piece := getProficiencyLabel (level r)).
    - cbn [In]. tauto.
    - rewrite <- (append_nil_r (getProficiencyLabel (level r))) at 2.
      apply includes_here. }
  repeat apply conj; try (vm_compute; reflexivity).
  intros r0 Hzero. unfold createSkillElement.
  cbn [name level icon years description]. now rewrite Hzero.
Qed.

Lemma createSkillElement_years_label_git :
  includes (years_text 4) (createSkillElement (git (Some 4))) = true.
Proof.
  assert (Hyears : years (git (Some 4)) = Some 4) by reflexivity.
  assert (Hn : 4 <> 0) by lia.
  destruct (createSkillElement_years_label (git (Some 4)) 4 Hyears Hn) as (_ & _ & H & _).
  exact H.
Defined.

(** C8, as the claim has it, fails at 0 years, a defined value: the record
    Git with [years: 0] is rendered without "0 years". *)
Lemma createSkillElement_zero_years_unlabelled :
  ~ forall (r : SkillRecord) (n : Z),
      years r = Some n -> includes (years_text n) (createSkillElement r) = true.
Proof.
  intros H. specialize (H (git (Some 0)) 0 eq_refl).
  vm_compute in H. discriminate H.
Qed.

Lemma own_property_map {A B : Type} (f : A -> B) (obj : list (string * A)) (key : string) :
  own_property (map (fun kv : string * A => (fst kv, f (snd kv))) obj) key
  = option_map f (own_property obj key).
Proof.
  induction obj as [|[k a] obj IH]; simpl; [reflexivity |].
  now destruct (k =? key)%string.
Qed.

Lemma createSkillElement_without_zero_years (r : SkillRecord) :
  createSkillElement (without_zero_years r) = createSkillElement r.
Proof.
  unfold createSkillElement, without_zero_years. cbn [name level icon years description].
  destruct (years r) as [y|]; [| reflexivity].
  now destruct (y =? 0) eqn:E; [| rewrite E].
Qed.

Lemma createSoftSkillBadge_without_zero_years (r : SkillRecord) :
  createSoftSkillBadge (without_zero_years r) = createSoftSkillBadge r.
Proof. reflexivity. Qed.

Lemma count_skill_without_zero_years (acc : Counters) (r : SkillRecord) :
  count_skill acc (without_zero_years r) = count_skill acc r.
Proof.
  unfold count_skill, without_zero_years. cbn [name level icon years description].
  destruct (years r) as [y|]; [| reflexivity].
  now destruct (y =? 0) eqn:E; [| rewrite E].
Qed.

Lemma render_document_without_zero_years (d : SkillsData) (doc : list (string * string)) :
  render_document (without_zero_years_data d) doc = render_document d doc.
Proof.
  unfold render_document.
  assert (H : forall doc0 category,
    render_category (without_zero_years_data d) doc0 category
    = render_category d doc0 category).
  { intros doc0 category. unfold render_category, without_zero_years_data.
    cbn [skills]. rewrite own_property_map.
    destruct (own_property (skills d) category) as [l|]; [| reflexivity].
    cbn [option_map]. rewrite !map_map.
    rewrite (map_ext _ _ createSkillElement_without_zero_years).
    now rewrite (map_ext _ _ createSoftSkillBadge_without_zero_years). }
  cbn [fold_left]. now rewrite !H.
Qed.

Lemma count_all_without_zero_years (d : SkillsData) :
  count_all (skills (without_zero_years_data d)) = count_all (skills d).
Proof.
  unfold count_all, without_zero_years_data. cbn [skills]. rewrite map_map. cbn [snd].
  generalize ({| totalSkills := 0; totalProficiency := 0; totalYears := 0;
                 countedSkills := 0 |}).
  induction (skills d) as [|[k l] cats IH]; intros acc; [reflexivity |].
  cbn [map fold_left snd]. rewrite IH. f_equal.
  clear. revert acc. induction l as [|r l IH]; intros acc; [reflexivity |].
  cbn [map fold_left]. now rewrite count_skill_without_zero_years, IH.
Qed.

(** C10.  A record with [years: 0] is rendered and counted as the same record
    without [years]: [createSkillElement] gives the same fragment, with no
    years label in it, and the inner loop of [calculateAndDisplayStats]
    leaves the same counters.  So a dataset and the dataset with every
    [years: 0] dropped leave the same page behind [renderSkills] and behind
    [calculateAndDisplayStats]. *)
Theorem zero_years_as_no_years :
  (forall n l i desc,
     createSkillElement
       {| name := n; level := l; icon := i; years := Some 0; description := desc |}
     = createSkillElement
         {| name := n; level := l; icon := i; years := None; description := desc |})
  /\ (forall acc n l i desc,
        count_skill acc
          {| name := n; level := l; icon := i; years := Some 0; description := desc |}
        = count_skill acc
            {| name := n; level := l; icon := i; years := None; description := desc |}
        /\ totalYears
             (count_skill acc
                {| name := n; level := l; icon := i; years := Some 0;
                   description := desc |})
           = totalYears acc)
  /\ includes "skill__years" (createSkillElement (git (Some 0))) = false
  /\ (forall d w,
        page_after (renderSkills (with_skillsData (toJSON (without_zero_years_data d)) w))
        = page_after (renderSkills (with_skillsData (toJSON d) w)))
  /\ (forall d w,
        page_after
          (calculateAndDisplayStats
             (with_skillsData (toJSON (without_zero_years_data d)) w))
        = page_after (calculateAndDisplayStats (with_skillsData (toJSON d) w))).
Proof.
  split; [reflexivity |].
  split; [intros; split; reflexivity |].
  split; [vm_compute; reflexivity |].
  split; intros d w.
  - rewrite (renderSkills_spec (without_zero_years_data d)) by reflexivity.
    rewrite (renderSkills_spec d) by reflexivity.
    cbn [page_after document with_document with_skillsData].
    now rewrite render_document_without_zero_years.
  - rewrite (calculateAndDisplayStats_spec (without_zero_years_data d)) by reflexivity.
    rewrite (calculateAndDisplayStats_spec d) by reflexivity.
    cbn [page_after document with_document with_skillsData].
    now rewrite count_all_without_zero_years.
Qed.

(* ================================================================= *)
(** * Assignments to the page *)

Lemma keys_set_property {A : Type} (obj : list (string * A)) (key : string) (a : A) :
  map fst (set_property obj key a) = map fst obj.
Proof.
  induction obj as [|[k a'] obj IH]; simpl; [reflexivity |].
  destruct (k =? key)%string; simpl; [reflexivity | now rewrite IH].
Qed.

Lemma set_property_same {A : Type} (obj : list (string * A)) (key : string) (a : A) :
  own_property obj key = Some a -> set_property obj key a = obj.
Proof.
  induction obj as [|[k a'] obj IH]; simpl; [reflexivity |].
  destruct (k =? key)%string; [now intros [= ->] |].
  intros H. now rewrite IH.
Qed.

Lemma own_property_set {A : Type} (obj : list (string * A)) (key key' : string) (a : A) :
  own_property (set_property obj key a) key'
  = if (key =? key')%string
    then match own_property obj key with
         | Some _ => Some a
         | None => None
         end
    else own_property obj key'.
Proof.
  destruct (String.eqb_spec key key') as [<-|Hne].
  - destruct (own_property obj key) as [a0|] eqn:E.
    + now apply own_property_set_same with (a0 := a0).
    + now rewrite set_property_absent.
  - now apply own_property_set_other.
Qed.


Lemma own_property_set_all_other (writes doc : list (string * string)) (id : string) :
  existsb (String.eqb id) (map fst writes) = false ->
  own_property (set_all writes doc) id = own_property doc id.
Proof.
  revert doc. induction writes as [|[k v] writes IH]; intros doc H; [reflexivity |].
  cbn [map fst existsb] in H. apply orb_false_iff in H as [Hk Hrest].
  unfold set_all in *. cbn [fold_left fst snd]. rewrite IH by exact Hrest.
  apply own_property_set_other. intros ->. now rewrite String.eqb_refl in Hk.
Qed.

Lemma own_property_set_all_written (writes doc : list (string * string)) (id text : string) :
  JSON.distinct (map fst writes) = true ->
  In (id, text) writes ->
  own_property (set_all writes doc) id
  = match own_property doc id with
    | Some _ => Some text
    | None => None
    end.
Proof.
  revert doc. induction writes as [|[k v] writes IH]; intros doc Hd Hin; [destruct Hin |].
  cbn [map fst JSON.distinct] in Hd. apply andb_true_iff in Hd as [Hk Hd].
  apply negb_true_iff in Hk.
  unfold set_all in *. cbn [fold_left fst snd].
  destruct Hin as [[= -> ->] | Hin].
  - fold (set_all writes (set_property doc id text)).
    rewrite own_property_set_all_other by exact Hk.
    rewrite own_property_set, String.eqb_refl. reflexivity.
  - rewrite (IH _ Hd Hin). rewrite own_property_set.
    destruct (String.eqb_spec k id) as [->|Hne]; [| reflexivity].
    exfalso. clear - Hk Hin. induction writes as [|[k' v'] writes IH]; [destruct Hin |].
    cbn [map fst existsb] in Hk. apply orb_false_iff in Hk as [H1 H2].
    destruct Hin as [[= -> ->] | Hin]; [now rewrite String.eqb_refl in H1 | now apply IH].
Qed.

(** Assignments to different elements, done again, change nothing. *)
Lemma set_all_twice (writes doc : list (string * string)) :
  JSON.distinct (map fst writes) = true ->
  set_all writes (set_all writes doc) = set_all writes doc.
Proof.
  intros Hd.
  enough (H : forall ws, incl ws writes ->
    set_all ws (set_all writes doc) = set_all writes doc) by (apply H, incl_refl).
  induction ws as [|[k v] ws IH]; intros Hincl; [reflexivity |].
  unfold set_all at 1. cbn [fold_left fst snd]. fold (set_all ws).
  assert (Hin : In (k, v) writes) by (apply Hincl; now left).
  pose proof (own_property_set_all_written writes doc k v Hd Hin) as Hown.
  destruct (own_property doc k) as [old|] eqn:E.
  - rewrite set_property_same by exact Hown. apply IH. intros x Hx. apply Hincl. now right.
  - rewrite set_property_absent by exact Hown. apply IH. intros x Hx. apply Hincl. now right.
Qed.

Lemma render_document_set_all (d : SkillsData) (doc : list (string * string)) :
  render_document d doc = set_all (render_writes d) doc.
Proof.
  unfold render_document, render_writes, rendered_categories, set_all, render_category.
  cbn [flat_map fold_left].
  destruct (own_property (skills d) "frontend"), (own_property (skills d) "backend"),
    (own_property (skills d) "tools"), (own_property (skills d) "softSkills");
    reflexivity.
Qed.

Lemma distinct_render_writes (d : SkillsData) :
  JSON.distinct (map fst (render_writes d)) = true.
Proof.
  unfold render_writes, rendered_categories. cbn [flat_map].
  destruct (own_property (skills d) "frontend"), (own_property (skills d) "backend"),
    (own_property (skills d) "tools"), (own_property (skills d) "softSkills");
    reflexivity.
Qed.

Lemma stats_document_set_all (c : Counters) (doc : list (string * string)) :
  stats_document c doc = set_all (stats_writes c) doc.
Proof.
  unfold stats_document, stats_writes, set_all. now destruct (countedSkills c >? 0).
Qed.

Lemma distinct_stats_writes (c : Counters) :
  JSON.distinct (map fst (stats_writes c)) = true.
Proof. unfold stats_writes. now destruct (countedSkills c >? 0). Qed.

Lemma in_render_writes (d : SkillsData) (category : string) (records : list SkillRecord) :
  In category rendered_categories ->
  own_property (skills d) category = Some records ->
  In (container_of category, markup_of category records) (render_writes d).
Proof.
  intros Hin Hown. unfold render_writes. apply in_flat_map.
  exists category. split; [exact Hin |]. rewrite Hown. now left.
Qed.

Lemma not_in_render_writes (d : SkillsData) (category : string) :
  In category rendered_categories ->
  own_property (skills d) category = None ->
  existsb (String.eqb (container_of category)) (map fst (render_writes d)) = false.
Proof.
  intros Hin Hown. unfold render_writes, rendered_categories in *. cbn [flat_map].
  destruct Hin as [<- | [<- | [<- | [<- | []]]]]; rewrite Hown;
    match goal with
    | |- context [own_property (skills d) ?a] =>
        destruct (own_property (skills d) a)
    end;
    match goal with
    | |- context [own_property (skills d) ?a] =>
        destruct (own_property (skills d) a)
    end;
    match goal with
    | |- context [own_property (skills d) ?a] =>
        destruct (own_property (skills d) a)
    end; reflexivity.
Qed.

Lemma render_writes_containers (d : SkillsData) (id : string) :
  existsb (String.eqb id) (map container_of rendered_categories) = false ->
  existsb (String.eqb id) (map fst (render_writes d)) = false.
Proof.
  unfold render_writes, rendered_categories. cbn [flat_map map existsb].
  intros H. repeat (apply orb_false_iff in H as [? H]).
  destruct (own_property (skills d) "frontend"), (own_property (skills d) "backend"),
    (own_property (skills d) "tools"), (own_property (skills d) "softSkills");
    cbn [app map fst existsb container_of String.eqb Ascii.eqb Bool.eqb];
    repeat (apply orb_false_iff; split); try assumption; reflexivity.
Qed.

(* ================================================================= *)
(** * More on rendering *)

(** After [renderSkills] the container of a category holds the markup of the
    records the data has for it, one fragment a record, in their order.  A
    container the page lacks stays missing, and a category the data lacks
    leaves its container with what it held before. *)
Theorem renderSkills_containers (d : SkillsData) (w : World) (category : string) :
  skillsData (this w) = toJSON d ->
  In category rendered_categories ->
  exists w',
    renderSkills w = Normal tt w'
    /\ own_property (document w') (container_of category)
       = match own_property (skills d) category,
               own_property (document w) (container_of category) with
         | Some records, Some _ => Some (markup_of category records)
         | _, before => before
         end.
Proof.
  intros Hdata Hin. eexists. split; [apply (renderSkills_spec d w Hdata) |].
  cbn [document with_document]. rewrite render_document_set_all.
  destruct (own_property (skills d) category) as [records|] eqn:Hown.
  - rewrite (own_property_set_all_written _ _ _ (markup_of category records)
               (distinct_render_writes d) (in_render_writes d category records Hin Hown)).
    now destruct (own_property (document w) (container_of category)).
  - now rewrite own_property_set_all_other by (now apply not_in_render_writes).
Qed.

Lemma renderSkills_containers_tools :
  exists w',
    renderSkills fallback_world = Normal tt w'
    /\ own_property (document w') "tools-skills"
       = Some (template
                 (map createSkillElement
                    [ skill "Git" 90 "📝" (Some 4); skill "Docker" 75 "🐳" (Some 2);
                      skill "AWS" 70 "☁️" (Some 2) ])).
Proof.
  assert (Hdata : skillsData (this fallback_world) = toJSON getFallbackSkillsData)
    by reflexivity.
  assert (Hin : In "tools" rendered_categories) by (cbn; tauto).
  destruct (renderSkills_containers getFallbackSkillsData fallback_world "tools" Hdata Hin)
    as (w' & Hrun & Hown).
  exists w'. split; [exact Hrun | exact Hown].
Defined.

(** [renderSkills] assigns to the content of the four containers and to
    nothing else: the instance, the store and the console stay as they
    were, and every element with another id keeps its content. *)
Theorem renderSkills_frame (d : SkillsData) (w : World) :
  skillsData (this w) = toJSON d ->
  exists w',
    renderSkills w = Normal tt w'
    /\ this w' = this w
    /\ localStorage w' = localStorage w
    /\ console w' = console w
    /\ forall id,
         existsb (String.eqb id) (map container_of rendered_categories) = false ->
         own_property (document w') id = own_property (document w) id.
Proof.
  intros Hdata. eexists. split; [apply (renderSkills_spec d w Hdata) |].
  cbn [this localStorage console document with_document].
  do 3 (split; [reflexivity |]).
  rewrite render_document_set_all.
  intros id Hid. apply own_property_set_all_other. now apply render_writes_containers.
Qed.

Lemma renderSkills_frame_fallback :
  exists w',
    renderSkills fallback_world = Normal tt w'
    /\ own_property (document w') "total-skills" = Some "0"
    /\ console w' = [].
Proof.
  assert (Hdata : skillsData (this fallback_world) = toJSON getFallbackSkillsData)
    by reflexivity.
  destruct (renderSkills_frame getFallbackSkillsData fallback_world Hdata)
    as (w' & Hrun & _ & _ & Hconsole & Hother).
  exists w'. split; [exact Hrun |]. split; [| exact Hconsole].
  now rewrite (Hother "total-skills" eq_refl).
Defined.

(** Rendering again replaces and does not pile up: a second [renderSkills]
    on the same data leaves the world of the first. *)
Theorem renderSkills_twice (d : SkillsData) (w : World) :
  skillsData (this w) = toJSON d ->
  exists w',
    renderSkills w = Normal tt w' /\ renderSkills w' = Normal tt w'.
Proof.
  intros Hdata. eexists. split; [apply (renderSkills_spec d w Hdata) |].
  rewrite (renderSkills_spec d) by exact Hdata.
  cbn [document with_document]. rewrite with_document_twice.
  now rewrite !render_document_set_all, set_all_twice by apply distinct_render_writes.
Qed.

Lemma renderSkills_twice_fallback :
  exists w',
    renderSkills fallback_world = Normal tt w' /\ renderSkills w' = Normal tt w'.
Proof.
  apply (renderSkills_twice getFallbackSkillsData fallback_world). reflexivity.
Defined.



(** The class and the label of a level name the same tier, whatever the
    level, also outside 0 to 100. *)
Theorem getProficiencyClass_matches_label (level : Z) :
  getProficiencyClass level = class_of_label (getProficiencyLabel level)
  /\ (getProficiencyClass level = "skill--expert" <-> getProficiencyLabel level = "Expert")
  /\ (getProficiencyClass level = "skill--beginner"
      <-> getProficiencyLabel level = "Beginner")
  /\ (level < 60 -> getProficiencyClass level = "skill--beginner")
  /\ (100 < level -> getProficiencyClass level = "skill--expert").
Proof.
  unfold getProficiencyClass, getProficiencyLabel.
  destruct (Z.geb_spec level 90); [| destruct (Z.geb_spec level 75);
    [| destruct (Z.geb_spec level 60)]].
  all: repeat apply conj; intros; try reflexivity; try discriminate; lia.
Qed.

(** Both templates put the name and the icon of a record into the markup
    as they are, and [createSkillElement] the description too: nothing is
    escaped. *)
Theorem templates_interpolate_verbatim (r : SkillRecord) :
  includes (name r) (createSkillElement r) = true
  /\ includes (icon r) (createSkillElement r) = true
  /\ includes (name r) (createSoftSkillBadge r) = true
  /\ includes (icon r) (createSoftSkillBadge r) = true
  /\ match description r with
     | Some text => includes text (createSkillElement r) = true
     | None => True
     end.
Proof.
  assert (Hself : forall s, includes s s = true).
  { intros s. rewrite <- (append_nil_r s) at 2. apply includes_here. }
  repeat apply conj.
  - unfold createSkillElement. apply includes_template with (piece := name r);
      [cbn [In]; tauto | apply Hself].
  - unfold createSkillElement. apply includes_template with (piece := icon r);
      [cbn [In]; tauto | apply Hself].
  - unfold createSoftSkillBadge. apply includes_template with (piece := name r);
      [cbn [In]; tauto | apply Hself].
  - unfold createSoftSkillBadge. apply includes_template with (piece := icon r);
      [cbn [In]; tauto | apply Hself].
  - destruct (description r) as [text|] eqn:E; [| exact I].
    unfold createSkillElement. rewrite E.
    destruct (String.eqb_spec text EmptyString) as [->|Hne].
    + now destruct (template _).
    + apply includes_template with (piece := description_paragraph text);
        [cbn [In]; tauto |].
      unfold description_paragraph.
      apply includes_template with (piece := text); [cbn [In]; tauto | apply Hself].
Qed.

(** A description is rendered as a paragraph when it is not empty; the empty
    description is rendered as no description at all. *)
Theorem createSkillElement_description (r : SkillRecord) (text : string) :
  description r = Some text ->
  if (text =? EmptyString)%string
  then createSkillElement r = createSkillElement (without_description r)
  else includes (description_paragraph text) (createSkillElement r) = true.
Proof.
  intros Hd. destruct (String.eqb_spec text EmptyString) as [->|Hne].
  - unfold createSkillElement, without_description.
    cbn [name level icon years description]. now rewrite Hd.
  - unfold createSkillElement. rewrite Hd.
    destruct (String.eqb_spec text EmptyString) as [E|_]; [contradiction |].
    apply includes_template with (piece := description_paragraph text);
      [cbn [In]; tauto |].
    rewrite <- (append_nil_r (description_paragraph text)) at 2. apply includes_here.
Qed.

Lemma createSkillElement_description_empty :
  createSkillElement
    {| name := "Git"; level := 90; icon := "📝"; years := Some 4;
       description := Some EmptyString |}
  = createSkillElement (git (Some 4)).
Proof.
  apply (createSkillElement_description
           {| name := "Git"; level := 90; icon := "📝"; years := Some 4;
              description := Some EmptyString |} EmptyString).
  reflexivity.
Defined.

(* ================================================================= *)
(** * More on updating a level *)

Lemma assign_level_split (skillName : string) (v : Z) (l : list SkillRecord)
  (s : SkillRecord) :
  find_skill skillName l = Some s ->
  exists before after,
    l = (before ++ s :: after)%list
    /\ forallb (fun r => negb (name r =? skillName)%string) before = true
    /\ (name s =? skillName)%string = true
    /\ assign_level skillName v l = (before ++ with_level v s :: after)%list.
Proof.
  unfold find_skill. induction l as [|r l IH]; simpl; [discriminate |].
  destruct (name r =? skillName)%string eqn:E.
  - intros [= ->]. now exists [], l.
  - intros H. destruct (IH H) as (before & after & -> & Hb & Hs & Ha).
    exists (r :: before), after. simpl. now rewrite E, Hb, Ha.
Qed.

Lemma assign_level_twice (skillName : string) (v : Z) (l : list SkillRecord) :
  assign_level skillName v (assign_level skillName v l) = assign_level skillName v l.
Proof.
  induction l as [|r l IH]; simpl; [reflexivity |].
  destruct (name r =? skillName)%string eqn:E; simpl; rewrite E; [reflexivity |].
  now rewrite IH.
Qed.

Lemma set_property_twice {A : Type} (obj : list (string * A)) (key : string) (a b : A) :
  set_property (set_property obj key a) key b = set_property obj key b.
Proof.
  induction obj as [|[k a'] obj IH]; simpl; [reflexivity |].
  destruct (k =? key)%string eqn:E; simpl; rewrite E; [reflexivity | now rewrite IH].
Qed.

Lemma storage_put_twice (l : list (string * string)) (key text : string) :
  storage_put (storage_put l key text) key text = storage_put l key text.
Proof.
  induction l as [|[k v] l IH]; simpl.
  - now rewrite String.eqb_refl.
  - destruct (k =? key)%string eqn:E; simpl; rewrite E; [reflexivity | now rewrite IH].
Qed.

(** A successful [updateSkillLevel], step by step. *)
Lemma updateSkillLevel_run (d : SkillsData) (w : World) (category skillName : string)
  (newLevel : Z) (records : list SkillRecord) (s : SkillRecord) :
  skillsData (this w) = toJSON d ->
  own_property (skills d) category = Some records ->
  find_skill skillName records = Some s ->
  let d' := {| skills := set_property (skills d) category
                           (assign_level skillName (clamp newLevel 0 100) records) |} in
  exists w1,
    saveToLocalStorage (with_skillsData (toJSON d') w) = Normal tt w1
    /\ updateSkillLevel category skillName newLevel w
       = Normal true
           (with_document
              (stats_document (count_all (skills d')) (render_document d' (document w)))
              w1).
Proof.
  intros Hdata Hcat Hfind d'.
  destruct (after_assignment d' (with_skillsData (toJSON d') w) eq_refl)
    as (w1 & Hsave & Hrest & _ & _).
  exists w1. split; [exact Hsave |].
  read_document updateSkillLevel Hdata.
  unfold get_property. rewrite Hcat, Hfind, clamp_min_max.
  unfold bind at 1, set_skillsData. fold d'.
  unfold bind at 1. rewrite Hsave. exact Hrest.
Qed.

Lemma saveToLocalStorage_this (w w1 : World) :
  saveToLocalStorage w = Normal tt w1 -> this w1 = this w /\ document w1 = document w.
Proof.
  rewrite saveToLocalStorage_spec. cbv zeta.
  destruct (_ <=? _)%N; intros [= <-]; now split.
Qed.

(** [updateSkillLevel] changes one record and nothing else of the data: the
    first record of the category that bears the name gets the level, a later
    record of the same name keeps its own, and the keys and the records of
    the other categories stay. *)
Theorem updateSkillLevel_changes_one_record (d : SkillsData) (w : World)
  (category skillName : string) (newLevel : Z)
  (records : list SkillRecord) (s : SkillRecord) :
  skillsData (this w) = toJSON d ->
  own_property (skills d) category = Some records ->
  find_skill skillName records = Some s ->
  exists w' d' before after,
    updateSkillLevel category skillName newLevel w = Normal true w'
    /\ skillsData (this w') = toJSON d'
    /\ records = (before ++ s :: after)%list
    /\ forallb (fun r => negb (name r =? skillName)%string) before = true
    /\ own_property (skills d') category
       = Some (before ++ with_level (clamp newLevel 0 100) s :: after)%list
    /\ map fst (skills d') = map fst (skills d)
    /\ forall other,
         other <> category ->
         own_property (skills d') other = own_property (skills d) other.
Proof.
  intros Hdata Hcat Hfind.
  destruct (updateSkillLevel_run d w category skillName newLevel records s Hdata Hcat Hfind)
    as (w1 & Hsave & Hrun).
  destruct (saveToLocalStorage_this _ _ Hsave) as [Hthis _].
  destruct (assign_level_split skillName (clamp newLevel 0 100) records s Hfind)
    as (before & after & Hsplit & Hbefore & _ & Hassign).
  eexists _, _, before, after. split; [exact Hrun |].
  cbn [this with_document]. rewrite Hthis. cbn [this with_skillsData skillsData].
  split; [reflexivity |]. split; [exact Hsplit |]. split; [exact Hbefore |].
  cbn [skills]. split.
  { rewrite <- Hassign. now apply own_property_set_same with (a0 := records). }
  split; [apply keys_set_property |].
  intros other Hne. apply own_property_set_other. congruence.
Qed.

Lemma updateSkillLevel_changes_one_record_docker :
  exists w' d',
    updateSkillLevel "tools" "Docker" 40 fallback_world = Normal true w'
    /\ skillsData (this w') = toJSON d'
    /\ map fst (skills d') = ["frontend"; "backend"; "tools"; "softSkills"]
    /\ own_property (skills d') "frontend"
       = own_property (skills getFallbackSkillsData) "frontend".
Proof.
  assert (Hdata : skillsData (this fallback_world) = toJSON getFallbackSkillsData)
    by reflexivity.
  assert (Hcat : own_property (skills getFallbackSkillsData) "tools"
                 = Some [ skill "Git" 90 "📝" (Some 4); skill "Docker" 75 "🐳" (Some 2);
                          skill "AWS" 70 "☁️" (Some 2) ]) by reflexivity.
  assert (Hfind : find_skill "Docker"
                    [ skill "Git" 90 "📝" (Some 4); skill "Docker" 75 "🐳" (Some 2);
                      skill "AWS" 70 "☁️" (Some 2) ]
                  = Some (skill "Docker" 75 "🐳" (Some 2))) by reflexivity.
  destruct (updateSkillLevel_changes_one_record getFallbackSkillsData fallback_world
              "tools" "Docker" 40 _ _ Hdata Hcat Hfind)
    as (w' & d' & before & after & Hrun & Hthis & _ & _ & _ & Hkeys & Hother).
  exists w', d'. split; [exact Hrun |]. split; [exact Hthis |].
  split; [exact Hkeys | apply Hother; discriminate].
Defined.

Lemma sum_Z_app (l1 l2 : list Z) : sum_Z (l1 ++ l2) = sum_Z l1 + sum_Z l2.
Proof.
  unfold sum_Z. induction l1 as [|x l1 IH]; simpl; [reflexivity | rewrite IH; lia].
Qed.

Lemma sum_set_property (f : SkillRecord -> Z) (cats : SkillCategorySet) (category : string)
  (l l' : list SkillRecord) :
  own_property cats category = Some l ->
  sum_Z (map f (List.concat (map snd (set_property cats category l'))))
  = sum_Z (map f (List.concat (map snd cats))) - sum_Z (map f l) + sum_Z (map f l').
Proof.
  induction cats as [|[k l0] cats IH]; simpl; [discriminate |].
  destruct (k =? category)%string; simpl; rewrite !map_app, !sum_Z_app.
  - intros [= ->]. lia.
  - intros H. rewrite (IH H). lia.
Qed.

Lemma length_set_property (cats : SkillCategorySet) (category : string)
  (l l' : list SkillRecord) :
  own_property cats category = Some l ->
  List.length l' = List.length l ->
  List.length (List.concat (map snd (set_property cats category l')))
  = List.length (List.concat (map snd cats)).
Proof.
  intros Hown Hlen. induction cats as [|[k l0] cats IH]; simpl in *; [discriminate |].
  destruct (k =? category)%string; simpl; rewrite !length_app.
  - injection Hown as ->. now rewrite Hlen.
  - now rewrite IH.
Qed.

(** An update moves neither the number of skills nor the total of years;
    the total of the levels moves by the difference between the stored level
    and the old one.  The page shows the number again. *)
Theorem updateSkillLevel_keeps_totals (d : SkillsData) (w : World)
  (category skillName : string) (newLevel : Z)
  (records : list SkillRecord) (s : SkillRecord) :
  skillsData (this w) = toJSON d ->
  own_property (skills d) category = Some records ->
  find_skill skillName records = Some s ->
  exists w' d',
    updateSkillLevel category skillName newLevel w = Normal true w'
    /\ skillsData (this w') = toJSON d'
    /\ totalSkills (count_all (skills d')) = totalSkills (count_all (skills d))
    /\ totalYears (count_all (skills d')) = totalYears (count_all (skills d))
    /\ totalProficiency (count_all (skills d'))
       = totalProficiency (count_all (skills d)) - level s + clamp newLevel 0 100
    /\ own_property (document w') "total-skills"
       = match own_property (document w) "total-skills" with
         | Some _ => Some (show_Z (totalSkills (count_all (skills d))))
         | None => None
         end.
Proof.
  intros Hdata Hcat Hfind.
  destruct (updateSkillLevel_run d w category skillName newLevel records s Hdata Hcat Hfind)
    as (w1 & Hsave & Hrun).
  destruct (saveToLocalStorage_this _ _ Hsave) as [Hthis _].
  destruct (assign_level_split skillName (clamp newLevel 0 100) records s Hfind)
    as (before & after & Hsplit & _ & _ & Hassign).
  set (records' := assign_level skillName (clamp newLevel 0 100) records) in *.
  set (d' := {| skills := set_property (skills d) category records' |}) in *.
  assert (Hskills : totalSkills (count_all (skills d')) = totalSkills (count_all (skills d))).
  { rewrite !count_all_spec. cbn [totalSkills]. unfold all_records. cbn [skills d'].
    f_equal. apply (length_set_property _ _ records); [exact Hcat |].
    apply length_assign_level. }
  exists (with_document
            (stats_document (count_all (skills d')) (render_document d' (document w))) w1), d'.
  split; [exact Hrun |].
  cbn [this with_document]. rewrite Hthis.
  split; [reflexivity |]. split; [exact Hskills |].
  split.
  { rewrite !count_all_spec. cbn [totalYears]. unfold all_records. cbn [skills d'].
    rewrite (sum_set_property years_or_zero _ _ records) by exact Hcat.
    rewrite Hassign, Hsplit, !map_app, !sum_Z_app. cbn [map]. unfold sum_Z. simpl.
    unfold years_or_zero, with_level. cbn [years]. lia. }
  split.
  { rewrite !count_all_spec. cbn [totalProficiency]. unfold all_records. cbn [skills d'].
    rewrite (sum_set_property level _ _ records) by exact Hcat.
    rewrite Hassign, Hsplit, !map_app, !sum_Z_app. cbn [map]. unfold sum_Z. simpl. lia. }
  cbn [document with_document].
  rewrite stats_document_set_all.
  rewrite (own_property_set_all_written _ _ "total-skills"
             (show_Z (totalSkills (count_all (skills d')))) (distinct_stats_writes _))
    by (unfold stats_writes; now left).
  rewrite render_document_set_all.
  rewrite own_property_set_all_other by (now apply render_writes_containers).
  now rewrite Hskills.
Qed.

Lemma updateSkillLevel_keeps_totals_docker :
  exists w' d',
    updateSkillLevel "tools" "Docker" 150 fallback_world = Normal true w'
    /\ totalSkills (count_all (skills d')) = 12
    /\ totalProficiency (count_all (skills d')) = 1063
    /\ own_property (document w') "total-skills" = Some "12".
Proof.
  assert (Hdata : skillsData (this fallback_world) = toJSON getFallbackSkillsData)
    by reflexivity.
  assert (Hcat : own_property (skills getFallbackSkillsData) "tools"
                 = Some [ skill "Git" 90 "📝" (Some 4); skill "Docker" 75 "🐳" (Some 2);
                          skill "AWS" 70 "☁️" (Some 2) ]) by reflexivity.
  assert (Hfind : find_skill "Docker"
                    [ skill "Git" 90 "📝" (Some 4); skill "Docker" 75 "🐳" (Some 2);
                      skill "AWS" 70 "☁️" (Some 2) ]
                  = Some (skill "Docker" 75 "🐳" (Some 2))) by reflexivity.
  destruct (updateSkillLevel_keeps_totals getFallbackSkillsData fallback_world
              "tools" "Docker" 150 _ _ Hdata Hcat Hfind)
    as (w' & d' & Hrun & _ & Hskills & _ & Hlevels & Hshown).
  exists w', d'. split; [exact Hrun |].
  split; [exact Hskills |]. split; [exact Hlevels | exact Hshown].
Defined.

Lemma valid_set_property (d : SkillsData) (category : string) (l : list SkillRecord) :
  valid d = true -> valid {| skills := set_property (skills d) category l |} = true.
Proof. unfold valid. cbn [skills]. now rewrite keys_set_property. Qed.

Lemma saveToLocalStorage_after_assignment (v : JSON.value) (w : World) :
  saveToLocalStorage (with_skillsData v w)
  = if (storage_usage
          (storage_put (items (localStorage w)) "portfolio-skills" (JSON.stringify v))
        <=? quota (localStorage w))%N
    then Normal tt
           (with_items
              (storage_put (items (localStorage w)) "portfolio-skills" (JSON.stringify v))
              (with_skillsData v w))
    else Normal tt (with_console (console w ++ [save_warning])%list (with_skillsData v w)).
Proof. now rewrite saveToLocalStorage_spec. Qed.

Lemma loadFromLocalStorage_stored (session : SkillsManager) (w : World)
  (text : string) (v : JSON.value) :
  own_property (items (localStorage w)) "portfolio-skills" = Some text ->
  (text =? EmptyString)%string = false ->
  JSON.parse text = Some v ->
  loadFromLocalStorage (with_this session w)
  = Normal true (with_skillsData v (with_this session w)).
Proof.
  intros Hown Hne Hparse. rewrite loadFromLocalStorage_spec.
  change (localStorage (with_this session w)) with (localStorage w).
  now rewrite Hown, Hne, Hparse.
Qed.

(** An update always takes effect in the instance: the first record of the
    category that bears the name gets the clamped level, the records around
    it and the other categories stay.  The updated data is persisted too,
    so that a later session restores it, unless the store refuses the
    write: then the store keeps what it held, a warning is logged, and the
    update still returns [true]. *)
Theorem updateSkillLevel_persists_or_warns (d : SkillsData) (w : World)
  (category skillName : string) (newLevel : Z)
  (records : list SkillRecord) (s : SkillRecord) :
  valid d = true ->
  skillsData (this w) = toJSON d ->
  own_property (skills d) category = Some records ->
  find_skill skillName records = Some s ->
  exists w' d' before after,
    updateSkillLevel category skillName newLevel w = Normal true w'
    /\ skillsData (this w') = toJSON d'
    /\ records = (before ++ s :: after)%list
    /\ forallb (fun r => negb (name r =? skillName)%string) before = true
    /\ own_property (skills d') category
       = Some (before ++ with_level (clamp newLevel 0 100) s :: after)%list
    /\ (forall other,
          other <> category ->
          own_property (skills d') other = own_property (skills d) other)
    /\ ((console w' = console w
         /\ forall session : SkillsManager,
              loadFromLocalStorage (with_this session w')
              = Normal true (with_skillsData (toJSON d') (with_this session w')))
        \/ (console w' = (console w ++ [save_warning])%list
            /\ localStorage w' = localStorage w)).
Proof.
  intros Hvalid Hdata Hcat Hfind.
  destruct (updateSkillLevel_run d w category skillName newLevel records s Hdata Hcat Hfind)
    as (w1 & Hsave & Hrun).
  destruct (assign_level_split skillName (clamp newLevel 0 100) records s Hfind)
    as (before & after & Hsplit & Hbefore & _ & Hassign).
  set (d' := {| skills := set_property (skills d) category
                            (assign_level skillName (clamp newLevel 0 100) records) |}) in *.
  assert (Hcat' : own_property (skills d') category
                  = Some (before ++ with_level (clamp newLevel 0 100) s :: after)%list).
  { unfold d'. cbn [skills]. rewrite <- Hassign.
    now apply own_property_set_same with (a0 := records). }
  assert (Hother : forall other,
            other <> category ->
            own_property (skills d') other = own_property (skills d) other).
  { intros other Hne. unfold d'. cbn [skills].
    apply own_property_set_other. congruence. }
  eexists _, d', before, after. split; [exact Hrun |].
  rewrite saveToLocalStorage_after_assignment in Hsave.
  destruct (_ <=? _)%N; injection Hsave as <-.
  - split; [reflexivity |]. split; [exact Hsplit |]. split; [exact Hbefore |].
    split; [exact Hcat' |]. split; [exact Hother |].
    left. split; [reflexivity |].
    intros session.
    apply loadFromLocalStorage_stored with (text := JSON.stringify (toJSON d')).
    + apply own_property_storage_put.
    + apply stringify_toJSON_nonempty.
    + apply parse_stringify_toJSON, valid_set_property, Hvalid.
  - split; [reflexivity |]. split; [exact Hsplit |]. split; [exact Hbefore |].
    split; [exact Hcat' |]. split; [exact Hother |].
    right. split; reflexivity.
Qed.

Lemma updateSkillLevel_persists_or_warns_full_store :
  exists w',
    updateSkillLevel "tools" "Docker" 40 full_store_world = Normal true w'
    /\ localStorage w' = localStorage full_store_world
    /\ console w' = [save_warning].
Proof.
  assert (Hvalid : valid getFallbackSkillsData = true) by reflexivity.
  assert (Hdata : skillsData (this full_store_world) = toJSON getFallbackSkillsData)
    by reflexivity.
  assert (Hcat : own_property (skills getFallbackSkillsData) "tools"
                 = Some [ skill "Git" 90 "📝" (Some 4); skill "Docker" 75 "🐳" (Some 2);
                          skill "AWS" 70 "☁️" (Some 2) ]) by reflexivity.
  assert (Hfind : find_skill "Docker"
                    [ skill "Git" 90 "📝" (Some 4); skill "Docker" 75 "🐳" (Some 2);
                      skill "AWS" 70 "☁️" (Some 2) ]
                  = Some (skill "Docker" 75 "🐳" (Some 2))) by reflexivity.
  destruct (updateSkillLevel_persists_or_warns getFallbackSkillsData full_store_world
              "tools" "Docker" 40 _ _ Hvalid Hdata Hcat Hfind)
    as (w' & d' & before & after & Hrun & _).
  exists w'. split; [exact Hrun |].
  vm_compute in Hrun. injection Hrun as <-. split; reflexivity.
Defined.

Lemma set_all_app (a b doc : list (string * string)) :
  set_all (a ++ b) doc = set_all b (set_all a doc).
Proof. unfold set_all. apply fold_left_app. Qed.

Lemma distinct_page_writes (d : SkillsData) (c : Counters) :
  JSON.distinct (map fst (render_writes d ++ stats_writes c)) = true.
Proof.
  unfold render_writes, rendered_categories, stats_writes. cbn [flat_map].
  destruct (own_property (skills d) "frontend"), (own_property (skills d) "backend"),
    (own_property (skills d) "tools"), (own_property (skills d) "softSkills"),
    (countedSkills c >? 0); reflexivity.
Qed.

(** Rendering and the statistics, done again on the same data, change
    nothing. *)
Lemma page_twice (d : SkillsData) (doc : list (string * string)) :
  let page := stats_document (count_all (skills d)) (render_document d doc) in
  stats_document (count_all (skills d)) (render_document d page) = page.
Proof.
  cbv zeta. rewrite !stats_document_set_all, !render_document_set_all.
  set (rw := render_writes d). set (sw := stats_writes (count_all (skills d))).
  rewrite <- (set_all_app rw sw doc).
  rewrite <- (set_all_app rw sw (set_all (rw ++ sw) doc)).
  apply set_all_twice, distinct_page_writes.
Qed.

(** The same update done again returns [true] again and changes neither
    the data, nor the page, nor the store. *)
Theorem updateSkillLevel_twice (d : SkillsData) (w : World)
  (category skillName : string) (newLevel : Z)
  (records : list SkillRecord) (s : SkillRecord) :
  skillsData (this w) = toJSON d ->
  own_property (skills d) category = Some records ->
  find_skill skillName records = Some s ->
  exists w' w'',
    updateSkillLevel category skillName newLevel w = Normal true w'
    /\ updateSkillLevel category skillName newLevel w' = Normal true w''
    /\ this w'' = this w'
    /\ document w'' = document w'
    /\ localStorage w'' = localStorage w'.
Proof.
  intros Hdata Hcat Hfind.
  destruct (updateSkillLevel_run d w category skillName newLevel records s Hdata Hcat Hfind)
    as (w1 & Hsave & Hrun).
  set (v := clamp newLevel 0 100) in *.
  set (records' := assign_level skillName v records) in *.
  set (d' := {| skills := set_property (skills d) category records' |}) in *.
  set (w' := with_document
               (stats_document (count_all (skills d')) (render_document d' (document w)))
               w1) in *.
  destruct (saveToLocalStorage_this _ _ Hsave) as [Hthis1 _].
  assert (Hdata' : skillsData (this w') = toJSON d').
  { cbn [w' this with_document]. now rewrite Hthis1. }
  assert (Hcat' : own_property (skills d') category = Some records')
    by (now apply own_property_set_same with (a0 := records)).
  assert (Hfind' : find_skill skillName records' = Some (with_level v s))
    by (now apply find_skill_assign_level).
  destruct (updateSkillLevel_run d' w' category skillName newLevel records' _
              Hdata' Hcat' Hfind') as (w2 & Hsave2 & Hrun2).
  fold v in Hsave2, Hrun2.
  assert (Hd'' : {| skills := set_property (skills d') category
                                (assign_level skillName v records') |} = d').
  { unfold d' at 2. f_equal. cbn [skills d']. unfold records'.
    now rewrite assign_level_twice, set_property_twice. }
  rewrite Hd'' in Hsave2, Hrun2.
  exists w', (with_document
                (stats_document (count_all (skills d')) (render_document d' (document w')))
                w2).
  split; [exact Hrun |]. split; [exact Hrun2 |].
  destruct (saveToLocalStorage_this _ _ Hsave2) as [Hthis2 _].
  split.
  { cbn [this with_document]. rewrite Hthis2. cbn [this with_skillsData with_document w'].
    rewrite Hthis1. reflexivity. }
  split.
  { cbn [document with_document w']. apply page_twice. }
  cbn [localStorage with_document].
  assert (Hstore : localStorage w' = localStorage w1) by reflexivity.
  rewrite saveToLocalStorage_after_assignment in Hsave, Hsave2.
  rewrite Hstore in *.
  clear Hdata' Hthis1 Hthis2 Hrun Hrun2 Hstore.
  generalize dependent (JSON.stringify (toJSON d')). intros text Hsave Hsave2.
  destruct (storage_usage (storage_put (items (localStorage w)) "portfolio-skills" text)
            <=? quota (localStorage w))%N eqn:Hroom; injection Hsave as <-.
  - cbn [localStorage items quota with_items with_skillsData] in Hsave2 |- *.
    rewrite storage_put_twice, Hroom in Hsave2. now injection Hsave2 as <-.
  - cbn [localStorage with_console with_skillsData] in Hsave2.
    rewrite Hroom in Hsave2. now injection Hsave2 as <-.
Qed.

Lemma updateSkillLevel_twice_docker :
  exists w' w'',
    updateSkillLevel "tools" "Docker" 40 fallback_world = Normal true w'
    /\ updateSkillLevel "tools" "Docker" 40 w' = Normal true w''
    /\ document w'' = document w'.
Proof.
  assert (Hdata : skillsData (this fallback_world) = toJSON getFallbackSkillsData)
    by reflexivity.
  assert (Hcat : own_property (skills getFallbackSkillsData) "tools"
                 = Some [ skill "Git" 90 "📝" (Some 4); skill "Docker" 75 "🐳" (Some 2);
                          skill "AWS" 70 "☁️" (Some 2) ]) by reflexivity.
  assert (Hfind : find_skill "Docker"
                    [ skill "Git" 90 "📝" (Some 4); skill "Docker" 75 "🐳" (Some 2);
                      skill "AWS" 70 "☁️" (Some 2) ]
                  = Some (skill "Docker" 75 "🐳" (Some 2))) by reflexivity.
  destruct (updateSkillLevel_twice getFallbackSkillsData fallback_world
              "tools" "Docker" 40 _ _ Hdata Hcat Hfind)
    as (w' & w'' & Hrun & Hagain & _ & Hdoc & _).
  exists w', w''. split; [exact Hrun |]. split; [exact Hagain | exact Hdoc].
Defined.

(* ================================================================= *)
(** * More on the store *)

Lemma own_property_storage_put_other (l : list (string * string)) (key key' text : string) :
  key' <> key ->
  own_property (storage_put l key text) key' = own_property l key'.
Proof.
  intros Hne. induction l as [|[k v] l IH]; simpl.
  - destruct (String.eqb_spec key key'); [congruence | reflexivity].
  - destruct (String.eqb_spec k key) as [->|Hk]; simpl.
    + destruct (String.eqb_spec key key'); [congruence | reflexivity].
    + now rewrite IH.
Qed.

(** [saveToLocalStorage] always returns, whatever [this.skillsData] holds.
    It leaves the instance and the page alone and no key of the store but
    its own changes.  Either its key then holds the text of the data, or
    the store is as it was, with whatever older value it held, and a
    warning is logged. *)
Theorem saveToLocalStorage_only_its_key (w : World) :
  exists w',
    saveToLocalStorage w = Normal tt w'
    /\ this w' = this w
    /\ document w' = document w
    /\ (forall key, key <> "portfolio-skills" ->
          own_property (items (localStorage w')) key
          = own_property (items (localStorage w)) key)
    /\ ((own_property (items (localStorage w')) "portfolio-skills"
         = Some (JSON.stringify (skillsData (this w)))
         /\ console w' = console w)
        \/ (localStorage w' = localStorage w
            /\ console w' = (console w ++ [save_warning])%list)).
Proof.
  rewrite saveToLocalStorage_spec. cbv zeta.
  destruct (_ <=? _)%N; eexists; (split; [reflexivity |]);
    cbn [this document localStorage console items with_items with_console];
    do 2 (split; [reflexivity |]); split.
  - intros key Hkey. now apply own_property_storage_put_other.
  - left. split; [apply own_property_storage_put | reflexivity].
  - reflexivity.
  - right. split; reflexivity.
Qed.

(* ================================================================= *)
(** * Initialisation *)

Lemma loadSkillsData_loaded (network : string -> FetchOutcome) (w : World) :
  loadSkillsData network w
  = Normal tt
      (with_skillsData (loaded (network "data/skills.json"))
         (with_console (console w ++ load_log (network "data/skills.json"))%list w)).
Proof.
  unfold loadSkillsData, try_catch, bind at 1, fetch, loaded, load_log, load_error.
  destruct (network "data/skills.json") as [reason | response]; [reflexivity |].
  unfold ret at 1. unfold bind at 1.
  destruct (ok response); cbn [negb]; [| reflexivity].
  unfold ret at 1. unfold bind at 1, response_json, JSON_parse.
  destruct (JSON.parse (body response)); [| reflexivity].
  unfold ret at 1, set_skillsData. rewrite List.app_nil_r.
  now destruct w.
Qed.

Lemma load_log_loaded (outcome : FetchOutcome) :
  JSON.truthy (loaded outcome) = false -> load_log outcome = [].
Proof.
  unfold loaded, load_log, load_error.
  destruct outcome as [reason | response]; [discriminate |].
  destruct (ok response); [| discriminate].
  destruct (JSON.parse (body response)); [reflexivity | discriminate].
Qed.

Lemma renderSkills_falsy (w : World) :
  JSON.truthy (skillsData (this w)) = false -> renderSkills w = Normal tt w.
Proof.
  intros H. unfold renderSkills, bind at 1, get_skillsData. now rewrite H.
Qed.

Lemma calculateAndDisplayStats_falsy (w : World) :
  JSON.truthy (skillsData (this w)) = false -> calculateAndDisplayStats w = Normal tt w.
Proof.
  intros H. unfold calculateAndDisplayStats, bind at 1, get_skillsData. now rewrite H.
Qed.

Lemma init_spec (page : PageEffects) (network : string -> FetchOutcome)
  (w : World) (d : SkillsData) :
  returns_quietly (initTabs page) ->
  returns_quietly (initSkillAnimations page) ->
  loaded (network "data/skills.json") = toJSON d ->
  init page network w
  = Normal tt
      {| this := {| skillsData := toJSON d; initialized := true |};
         localStorage := localStorage w;
         document := stats_document (count_all (skills d))
                       (render_document d (document w));
         console := (console w ++ load_log (network "data/skills.json")
                     ++ [init_success])%list |}.
Proof.
  intros Htabs Hanim Hloaded.
  unfold init, try_catch, bind at 1. rewrite loadSkillsData_loaded, Hloaded.
  unfold bind at 1. rewrite (renderSkills_spec d) by reflexivity.
  unfold bind at 1. rewrite Htabs.
  unfold bind at 1. rewrite Hanim.
  unfold bind at 1. rewrite (calculateAndDisplayStats_spec d) by reflexivity.
  unfold bind, set_initialized, console_log, console_write.
  cbn [this localStorage document console with_document with_skillsData with_console
       with_this skillsData].
  now rewrite <- List.app_assoc.
Qed.



(** When the body of the response is JSON for a falsy value ([null],
    [false], [0], the empty string), [init] still reports success: it sets
    [initialized] and logs its success, with no warning before it, while
    the page is left as it was. *)
Theorem init_falsy_body (page : PageEffects) (network : string -> FetchOutcome)
  (w : World) :
  returns_quietly (initTabs page) ->
  returns_quietly (initSkillAnimations page) ->
  JSON.truthy (loaded (network "data/skills.json")) = false ->
  init page network w
  = Normal tt
      {| this := {| skillsData := loaded (network "data/skills.json");
                    initialized := true |};
         localStorage := localStorage w;
         document := document w;
         console := (console w ++ [init_success])%list |}.
Proof.
  intros Htabs Hanim Hfalsy.
  unfold init, try_catch, bind at 1.
  rewrite loadSkillsData_loaded, (load_log_loaded _ Hfalsy), List.app_nil_r.
  unfold bind at 1. rewrite renderSkills_falsy by exact Hfalsy.
  unfold bind at 1. rewrite Htabs.
  unfold bind at 1. rewrite Hanim.
  unfold bind at 1. rewrite calculateAndDisplayStats_falsy by exact Hfalsy.
  reflexivity.
Qed.

Lemma init_falsy_body_null :
  init plain_page serves_null page_load
  = Normal tt
      {| this := {| skillsData := loaded (serves_null "data/skills.json");
                    initialized := true |};
         localStorage := localStorage page_load;
         document := document page_load;
         console := (console page_load ++ [init_success])%list |}.
Proof.
  apply (init_falsy_body plain_page serves_null page_load).
  - intros w. reflexivity.
  - intros w. reflexivity.
  - reflexivity.
Defined.

(** [showFallbackSkills], when its two page calls return, replaces whatever
    [this.skillsData] held by the fallback data and renders it.  It does
    not compute the statistics again: the three elements keep what they
    showed for the earlier data. *)
Theorem showFallbackSkills_keeps_statistics (page : PageEffects) (w : World) :
  returns_quietly (prependWarning page) ->
  returns_quietly (initSkillAnimations page) ->
  exists w',
    showFallbackSkills page w = Normal tt w'
    /\ this w' = {| skillsData := toJSON getFallbackSkillsData;
                    initialized := initialized (this w) |}
    /\ document w' = render_document getFallbackSkillsData (document w)
    /\ (forall id, existsb (String.eqb id) stats_elements = true ->
          own_property (document w') id = own_property (document w) id)
    /\ localStorage w' = localStorage w
    /\ console w' = console w.
Proof.
  intros Hwarn Hanim.
  unfold showFallbackSkills, bind at 1. rewrite Hwarn.
  unfold bind at 1, set_skillsData.
  unfold bind at 1. rewrite (renderSkills_spec getFallbackSkillsData) by reflexivity.
  rewrite Hanim. eexists. split; [reflexivity |].
  cbn [this localStorage document console with_document with_skillsData].
  repeat (split; [reflexivity |]).
  split; [| split; reflexivity].
  intros id Hid. rewrite render_document_set_all.
  apply own_property_set_all_other, render_writes_containers.
  unfold stats_elements in Hid. cbn [existsb] in Hid.
  repeat (apply orb_true_iff in Hid as [Hid | Hid]);
    try discriminate Hid; apply String.eqb_eq in Hid; subst id; reflexivity.
Qed.

Lemma showFallbackSkills_keeps_statistics_shown :
  exists w',
    showFallbackSkills plain_page shown_world = Normal tt w'
    /\ own_property (document w') "total-skills" = Some "12".
Proof.
  destruct (showFallbackSkills_keeps_statistics plain_page shown_world)
    as (w' & Hrun & _ & _ & Hstats & _).
  - intros w. reflexivity.
  - intros w. reflexivity.
  - exists w'. split; [exact Hrun |]. now rewrite Hstats.
Defined.



(** [init] done again, as by the Retry button or by a second listener of
    [DOMContentLoaded], with the network answering as before: it succeeds
    again and leaves the instance, the page and the store of the first
    run. *)
Theorem init_again (page : PageEffects) (network : string -> FetchOutcome)
  (w : World) (d : SkillsData) :
  returns_quietly (initTabs page) ->
  returns_quietly (initSkillAnimations page) ->
  loaded (network "data/skills.json") = toJSON d ->
  exists w1 w2,
    init page network w = Normal tt w1
    /\ init page network w1 = Normal tt w2
    /\ this w2 = this w1
    /\ document w2 = document w1
    /\ localStorage w2 = localStorage w1.
Proof.
  intros Htabs Hanim Hloaded.
  eexists. eexists.
  split; [apply (init_spec page network w d Htabs Hanim Hloaded) |].
  split; [apply (init_spec page network _ d Htabs Hanim Hloaded) |].
  cbn [this document localStorage].
  split; [reflexivity |]. split; [apply page_twice | reflexivity].
Qed.

Lemma init_again_offline :
  exists w1 w2,
    init plain_page offline page_load = Normal tt w1
    /\ init plain_page offline w1 = Normal tt w2
    /\ document w2 = document w1.
Proof.
  destruct (init_again plain_page offline page_load getFallbackSkillsData)
    as (w1 & w2 & Hfirst & Hsecond & _ & Hdoc & _).
  - intros w. reflexivity.
  - intros w. reflexivity.
  - reflexivity.
  - exists w1, w2. split; [exact Hfirst |]. split; [exact Hsecond | exact Hdoc].
Defined.

(* ================================================================= *)
(** * The tabs *)

Lemma nth_error_update_at {A : Type} (i j : nat) (f : A -> A) (l : list A) :
  nth_error (update_at i f l) j
  = if (j =? i)%nat then option_map f (nth_error l j) else nth_error l j.
Proof.
  revert i j. induction l as [|x l IH]; intros [|i] [|j]; simpl; try reflexivity.
  - now destruct (j =? i)%nat.
  - apply IH.
Qed.

Lemma length_update_at {A : Type} (i : nat) (f : A -> A) (l : list A) :
  List.length (update_at i f l) = List.length l.
Proof.
  revert i. induction l as [|x l IH]; intros [|i]; simpl; try reflexivity.
  now rewrite IH.
Qed.

Lemma nth_error_ext {A : Type} (l1 l2 : list A) :
  (forall j, nth_error l1 j = nth_error l2 j) -> l1 = l2.
Proof.
  revert l2. induction l1 as [|x l1 IH]; intros [|y l2] H.
  - reflexivity.
  - discriminate (H 0%nat).
  - discriminate (H 0%nat).
  - f_equal.
    + pose proof (H 0%nat) as H0. now injection H0.
    + apply IH. intros j. exact (H (S j)).
Qed.

Lemma element_by_id_ext (id : string) (l1 l2 : list Element) :
  map element_id l1 = map element_id l2 ->
  element_by_id id l1 = element_by_id id l2.
Proof.
  revert l2. induction l1 as [|x l1 IH]; intros [|y l2] H; try discriminate H.
  - reflexivity.
  - simpl in H. injection H as Hx Hrest. simpl. rewrite Hx.
    now rewrite (IH l2 Hrest).
Qed.

Lemma map_update_at {A B : Type} (g : A -> B) (f : A -> A) (i : nat) (l : list A) :
  (forall x, g (f x) = g x) ->
  map g (update_at i f l) = map g l.
Proof.
  intros Hf. revert i. induction l as [|x l IH]; intros [|i]; simpl; try reflexivity.
  - now rewrite Hf.
  - now rewrite IH.
Qed.

Lemma map_map_same {A B : Type} (g : A -> B) (f : A -> A) (l : list A) :
  (forall x, g (f x) = g x) ->
  map g (map f l) = map g l.
Proof.
  intros Hf. rewrite map_map. apply map_ext. exact Hf.
Qed.

Lemma element_id_deselect (el : Element) : element_id (deselect_tab el) = element_id el.
Proof. unfold deselect_tab. now destruct (skills__tab el). Qed.

Lemma element_id_hide (el : Element) : element_id (hide_panel el) = element_id el.
Proof. unfold hide_panel. now destruct (skills__panel el). Qed.

Lemma skills__tab_deselect (el : Element) : skills__tab (deselect_tab el) = skills__tab el.
Proof. unfold deselect_tab. now destruct (skills__tab el) eqn:E. Qed.

Lemma skills__tab_hide (el : Element) : skills__tab (hide_panel el) = skills__tab el.
Proof. unfold hide_panel. now destruct (skills__panel el). Qed.

(** The listener changes neither an id nor the class [skills__tab]. *)
Lemma on_click_keeps (A : Type) (g : Element -> A) (tab : nat) (s : TabBar) :
  (forall el, g (deselect_tab el) = g el) ->
  (forall el, g (select_tab el) = g el) ->
  (forall el, g (hide_panel el) = g el) ->
  (forall el, g (show_panel el) = g el) ->
  map g (elements (on_click tab s)) = map g (elements s).
Proof.
  intros Hd Hs Hh Hp. unfold on_click.
  destruct (nth_error (elements s) tab) as [el|]; [| reflexivity].
  cbn [elements].
  assert (Hhidden : map g (map hide_panel (update_at tab select_tab
                                             (map deselect_tab (elements s))))
                    = map g (elements s)).
  { rewrite map_map_same by exact Hh. rewrite map_update_at by exact Hs.
    now apply map_map_same. }
  destruct (element_by_id _ _); [| exact Hhidden].
  rewrite map_update_at by exact Hp. exact Hhidden.
Qed.

Lemma on_click_ids (tab : nat) (s : TabBar) :
  map element_id (elements (on_click tab s)) = map element_id (elements s).
Proof.
  apply on_click_keeps; intros el; auto using element_id_deselect, element_id_hide.
Qed.

Lemma on_click_classes (tab : nat) (s : TabBar) :
  map skills__tab (elements (on_click tab s)) = map skills__tab (elements s).
Proof.
  apply on_click_keeps; intros el; auto using skills__tab_deselect, skills__tab_hide.
Qed.

Lemma on_click_dataset (tab : nat) (s : TabBar) :
  map dataset_tab (elements (on_click tab s)) = map dataset_tab (elements s).
Proof.
  apply on_click_keeps; intros el; unfold deselect_tab, hide_panel;
    try destruct (skills__tab el); try destruct (skills__panel el); reflexivity.
Qed.

Lemma query_indices_ext (p : Element -> bool) (from : nat) (l1 l2 : list Element) :
  map p l1 = map p l2 -> query_indices p from l1 = query_indices p from l2.
Proof.
  revert from l2. induction l1 as [|x l1 IH]; intros from [|y l2] H; try discriminate H.
  - reflexivity.
  - simpl in H. injection H as Hx Hrest. simpl. rewrite Hx.
    now rewrite (IH (S from) l2 Hrest).
Qed.

Lemma tabs_click (tab : nat) (s : TabBar) : tabs (click tab s) = tabs s.
Proof.
  unfold click. destruct (nth_error (elements s) tab) as [el|]; [| reflexivity].
  destruct (disabled el); [reflexivity |].
  apply query_indices_ext, on_click_classes.
Qed.

(** The listener, element by element. *)
Lemma on_click_elements (tab : nat) (s : TabBar) (el : Element) (place : nat) :
  nth_error (elements s) tab = Some el ->
  nth_error (elements (on_click tab s)) place
  = option_map (after_click tab (target_of tab s) place) (nth_error (elements s) place).
Proof.
  intros Htab. unfold on_click, target_of. rewrite Htab. cbn [elements].
  set (hidden_panels := map hide_panel (update_at tab select_tab
                                          (map deselect_tab (elements s)))).
  assert (Hids : element_by_id (panel_id (dataset_tab el)) hidden_panels
                 = element_by_id (panel_id (dataset_tab el)) (elements s)).
  { apply element_by_id_ext. unfold hidden_panels.
    rewrite map_map_same by apply element_id_hide.
    rewrite map_update_at by reflexivity.
    apply map_map_same, element_id_deselect. }
  rewrite Hids.
  assert (Hhidden : nth_error hidden_panels place
                    = option_map
                        (fun x => hide_panel
                                    (if (place =? tab)%nat then select_tab (deselect_tab x)
                                     else deselect_tab x))
                        (nth_error (elements s) place)).
  { unfold hidden_panels. rewrite nth_error_map, nth_error_update_at, nth_error_map.
    destruct (place =? tab)%nat, (nth_error (elements s) place); reflexivity. }
  unfold after_click.
  destruct (element_by_id (panel_id (dataset_tab el)) (elements s)) as [t|].
  - rewrite nth_error_update_at, Hhidden.
    destruct (place =? t)%nat, (nth_error (elements s) place); reflexivity.
  - rewrite Hhidden. now destruct (nth_error (elements s) place).
Qed.

Lemma element_by_id_found (id : string) (l : list Element) (t : nat) :
  element_by_id id l = Some t ->
  exists el, nth_error l t = Some el /\ element_id el = Some id.
Proof.
  revert t. induction l as [|x l IH]; intros t H; [discriminate H |].
  simpl in H. destruct (element_id x) as [i|] eqn:Hid.
  - destruct (String.eqb_spec i id) as [->|Hne].
    + injection H as <-. exists x. now split.
    + destruct (element_by_id id l) as [t'|]; [| discriminate H].
      injection H as <-. apply (IH t' eq_refl).
  - destruct (element_by_id id l) as [t'|]; [| discriminate H].
    injection H as <-. apply (IH t' eq_refl).
Qed.

(** After a click on a tab that is not itself a panel, and whose panel is
    not a tab, the clicked tab is the one tab that is selected: it carries
    the class [active] and [aria-selected] is [true], every other tab lacks
    the class and has [aria-selected] at [false]. *)
Theorem on_click_selects_one_tab (s : TabBar) (tab : nat) (el : Element) :
  nth_error (elements s) tab = Some el ->
  skills__tab el = true ->
  skills__panel el = false ->
  (forall t panel, target_of tab s = Some t ->
     nth_error (elements s) t = Some panel -> skills__tab panel = false) ->
  forall place other,
    nth_error (elements (on_click tab s)) place = Some other ->
    skills__tab other = true ->
    classList_active other = (place =? tab)%nat
    /\ aria_selected other = Some (if (place =? tab)%nat then "true" else "false").
Proof.
  intros Htab Hclass Hpanel Htarget place other Hplace Hother.
  rewrite (on_click_elements tab s el place Htab) in Hplace.
  destruct (nth_error (elements s) place) as [before|] eqn:Hbefore; [| discriminate Hplace].
  injection Hplace as <-. unfold after_click in *.
  destruct (target_of tab s) as [t|] eqn:Ht.
  - destruct (Nat.eqb_spec place t) as [->|Hne].
    + specialize (Htarget t before eq_refl Hbefore).
      cbn [skills__tab show_panel] in Hother.
      rewrite skills__tab_hide in Hother.
      destruct (t =? tab)%nat; cbn [skills__tab select_tab] in Hother;
        rewrite skills__tab_deselect in Hother; congruence.
    + destruct (Nat.eqb_spec place tab) as [->|Hne'].
      * assert (before = el) by congruence. subst before.
        unfold hide_panel, select_tab, deselect_tab.
        rewrite Hclass. cbn [skills__panel]. rewrite Hpanel. now split.
      * rewrite skills__tab_hide, skills__tab_deselect in Hother.
        unfold hide_panel, deselect_tab. rewrite Hother. cbn [skills__panel].
        destruct (skills__panel before); now split.
  - destruct (Nat.eqb_spec place tab) as [->|Hne'].
    + assert (before = el) by congruence. subst before.
      unfold hide_panel, select_tab, deselect_tab.
      rewrite Hclass. cbn [skills__panel]. rewrite Hpanel. now split.
    + rewrite skills__tab_hide, skills__tab_deselect in Hother.
      unfold hide_panel, deselect_tab. rewrite Hother. cbn [skills__panel].
      destruct (skills__panel before); now split.
Qed.

Lemma on_click_selects_one_tab_backend :
  exists other,
    nth_error (elements (on_click 1 skills_tabs)) 0 = Some other
    /\ classList_active other = false
    /\ aria_selected other = Some "false".
Proof.
  assert (Htarget : forall t panel,
            target_of 1 skills_tabs = Some t ->
            nth_error (elements skills_tabs) t = Some panel ->
            skills__tab panel = false).
  { intros t panel Ht. vm_compute in Ht. injection Ht as <-.
    intros Hpanel. vm_compute in Hpanel. now injection Hpanel as <-. }
  eexists. split; [reflexivity |].
  apply (on_click_selects_one_tab skills_tabs 1 (tab_element "backend" false)
           eq_refl eq_refl eq_refl Htarget 0%nat _ eq_refl eq_refl).
Defined.

(** After a click on a tab the element with the id of its panel, if there
    is one, is shown and carries the class [active], also when it is not a
    [skills__panel]; every other panel is hidden and lacks the class.  When
    no element has that id, every panel is hidden.  An element that is
    neither a tab, nor a panel, nor that element stays as it was. *)
Theorem on_click_shows_one_panel (s : TabBar) (tab : nat) (el : Element) :
  nth_error (elements s) tab = Some el ->
  skills__tab el = true ->
  List.length (elements (on_click tab s)) = List.length (elements s)
  /\ (forall t, target_of tab s = Some t ->
        exists panel, nth_error (elements (on_click tab s)) t = Some panel
                      /\ element_id panel = Some (panel_id (dataset_tab el))
                      /\ classList_active panel = true /\ hidden panel = false)
  /\ (forall place other,
        nth_error (elements (on_click tab s)) place = Some other ->
        target_of tab s <> Some place ->
        skills__panel other = true ->
        classList_active other = false /\ hidden other = true)
  /\ (forall place other,
        nth_error (elements (on_click tab s)) place = Some other ->
        target_of tab s <> Some place ->
        skills__tab other = false -> skills__panel other = false ->
        nth_error (elements s) place = Some other).
Proof.
  intros Htab Htabclass. split; [| split; [| split]].
  - rewrite <- (length_map element_id), on_click_ids. apply length_map.
  - intros t Ht. rewrite (on_click_elements tab s el t Htab), Ht.
    unfold target_of in Ht. rewrite Htab in Ht.
    destruct (element_by_id_found _ _ _ Ht) as (panel & Hpanel & Hid).
    rewrite Hpanel. cbn [option_map]. eexists. split; [reflexivity |].
    unfold after_click. rewrite Nat.eqb_refl. cbn [element_id show_panel classList_active hidden].
    rewrite element_id_hide.
    destruct (t =? tab)%nat; cbn [element_id select_tab];
      rewrite element_id_deselect; auto.
  - intros place other Hplace Hnot Hpanel.
    rewrite (on_click_elements tab s el place Htab) in Hplace.
    destruct (nth_error (elements s) place) as [before|]; [| discriminate Hplace].
    injection Hplace as <-. unfold after_click in *.
    assert (Hshow : match target_of tab s with
                    | Some t => (place =? t)%nat
                    | None => false
                    end = false).
    { destruct (target_of tab s) as [t|]; [| reflexivity].
      apply Nat.eqb_neq. congruence. }
    rewrite Hshow in *.
    unfold hide_panel in *.
    destruct (skills__panel (if (place =? tab)%nat then select_tab (deselect_tab before)
                             else deselect_tab before)) eqn:E; [now split | congruence].
  - intros place other Hplace Hnot Hclass Hpanel.
    rewrite (on_click_elements tab s el place Htab) in Hplace.
    destruct (nth_error (elements s) place) as [before|] eqn:Hbefore;
      [| discriminate Hplace].
    injection Hplace as <-. f_equal. unfold after_click in *.
    assert (Hshow : match target_of tab s with
                    | Some t => (place =? t)%nat
                    | None => false
                    end = false).
    { destruct (target_of tab s) as [t|]; [| reflexivity].
      apply Nat.eqb_neq. congruence. }
    rewrite Hshow in *.
    destruct (Nat.eqb_spec place tab) as [->|Hne].
    + assert (before = el) by congruence. subst before.
      rewrite skills__tab_hide in Hclass. cbn [skills__tab select_tab] in Hclass.
      rewrite skills__tab_deselect in Hclass. congruence.
    + rewrite skills__tab_hide, skills__tab_deselect in Hclass.
      unfold hide_panel, deselect_tab in *. rewrite Hclass in *.
      destruct (skills__panel before); [discriminate Hpanel | reflexivity].
Qed.

Lemma on_click_shows_one_panel_backend :
  exists panel,
    nth_error (elements (on_click 1 skills_tabs)) 4 = Some panel
    /\ classList_active panel = true /\ hidden panel = false.
Proof.
  destruct (on_click_shows_one_panel skills_tabs 1 (tab_element "backend" false)
              eq_refl eq_refl)
    as (_ & Hshown & _).
  destruct (Hshown 4%nat eq_refl) as (panel & Hpanel & _ & Hactive & Hhidden).
  exists panel. split; [exact Hpanel |]. split; [exact Hactive | exact Hhidden].
Defined.

Lemma after_click_twice (i j k : nat) (ti tj : option nat) (el : Element) :
  ((k =? i)%nat = true -> skills__tab el = true) ->
  (match ti with
   | Some t => (k =? t)%nat
   | None => false
   end = true -> skills__panel el = true) ->
  after_click j tj k (after_click i ti k el) = after_click j tj k el.
Proof.
  unfold after_click.
  generalize (k =? i)%nat, (k =? j)%nat,
    (match ti with Some t => (k =? t)%nat | None => false end),
    (match tj with Some t => (k =? t)%nat | None => false end).
  intros at_first at_second at_first_panel at_second_panel.
  destruct el as [id tb pn dt ds ac ar hd]. cbn [skills__tab skills__panel].
  intros H1 H2.
  destruct at_first; [rewrite (H1 eq_refl) |];
    (destruct at_first_panel; [rewrite (H2 eq_refl) |]);
    destruct at_second, at_second_panel; try destruct tb; try destruct pn; reflexivity.
Qed.

Lemma dataset_after_click (i k : nat) (ti : option nat) (el : Element) :
  dataset_tab (after_click i ti k el) = dataset_tab el.
Proof.
  unfold after_click.
  generalize (k =? i)%nat, (match ti with Some t => (k =? t)%nat | None => false end).
  intros at_tab at_panel.
  destruct el as [id tb pn dt ds ac ar hd].
  destruct at_tab, at_panel, tb, pn; reflexivity.
Qed.

(** Of two clicks the later decides, when the panel of the first tab is a
    [skills__panel]: the elements are then as if only the second tab had
    been clicked. *)
Theorem on_click_last_wins (s : TabBar) (first second : nat) (el el' : Element) :
  nth_error (elements s) first = Some el ->
  skills__tab el = true ->
  nth_error (elements s) second = Some el' ->
  (forall t panel, target_of first s = Some t ->
     nth_error (elements s) t = Some panel -> skills__panel panel = true) ->
  elements (on_click second (on_click first s)) = elements (on_click second s).
Proof.
  intros Hfirst Hclass Hsecond Htarget.
  assert (Hsecond' : nth_error (elements (on_click first s)) second
                     = Some (after_click first (target_of first s) second el')).
  { now rewrite (on_click_elements first s el second Hfirst), Hsecond. }
  assert (Htarget' : target_of second (on_click first s) = target_of second s).
  { unfold target_of. rewrite Hsecond', Hsecond, dataset_after_click.
    apply element_by_id_ext, on_click_ids. }
  apply nth_error_ext. intros k.
  rewrite (on_click_elements second _ _ k Hsecond'), Htarget'.
  rewrite (on_click_elements first s el k Hfirst).
  rewrite (on_click_elements second s el' k Hsecond).
  destruct (nth_error (elements s) k) as [x|] eqn:Hk; [| reflexivity].
  cbn [option_map]. f_equal. apply after_click_twice.
  - intros Hki. apply Nat.eqb_eq in Hki. subst k. congruence.
  - destruct (target_of first s) as [t|]; [| discriminate].
    intros Hkt. apply Nat.eqb_eq in Hkt. subst k. now apply (Htarget t x).
Qed.

Lemma on_click_last_wins_tools :
  elements (on_click 2 (on_click 1 skills_tabs)) = elements (on_click 2 skills_tabs).
Proof.
  apply (on_click_last_wins skills_tabs 1 2
           (tab_element "backend" false) (tab_element "tools" false)).
  - reflexivity.
  - reflexivity.
  - reflexivity.
  - intros t panel Ht. vm_compute in Ht. injection Ht as <-.
    intros Hpanel. vm_compute in Hpanel. now injection Hpanel as <-.
Defined.

(** [ArrowRight] on a tab calls [focus] and [click] on the tab after it,
    and on the last tab on the first one; [ArrowLeft] on the tab reached
    goes back to the tab the key was pressed on.  Both keys call
    [preventDefault]. *)
Theorem ArrowLeft_undoes_ArrowRight (s : TabBar) (index tab : nat) :
  nth_error (tabs s) index = Some tab ->
  let next := if (S index =? List.length (tabs s))%nat then 0%nat else S index in
  exists nextTab,
    nth_error (tabs s) next = Some nextTab
    /\ on_keydown index "ArrowRight" s = (click nextTab (focus nextTab s), true)
    /\ on_keydown next "ArrowLeft" (click nextTab (focus nextTab s))
       = (click tab (focus tab (click nextTab (focus nextTab s))), true).
Proof.
  intros Htab next.
  assert (Hlt : (index < List.length (tabs s))%nat)
    by (apply nth_error_Some; congruence).
  assert (Hnext : (next < List.length (tabs s))%nat).
  { unfold next. destruct (Nat.eqb_spec (S index) (List.length (tabs s))); lia. }
  destruct (nth_error (tabs s) next) as [nextTab|] eqn:HnextTab;
    [| apply nth_error_None in HnextTab; lia].
  exists nextTab. split; [reflexivity |].
  assert (Hright : Z.to_nat ((Z.of_nat index + 1) mod Z.of_nat (List.length (tabs s)))
                   = next).
  { unfold next. destruct (Nat.eqb_spec (S index) (List.length (tabs s))) as [<-|Hne].
    - replace (Z.of_nat index + 1) with (Z.of_nat (S index)) by lia.
      rewrite Z.mod_same by lia. reflexivity.
    - rewrite Z.mod_small by lia. lia. }
  assert (Hleft : Z.to_nat ((Z.of_nat next - 1 + Z.of_nat (List.length (tabs s)))
                            mod Z.of_nat (List.length (tabs s)))
                  = index).
  { unfold next. destruct (Nat.eqb_spec (S index) (List.length (tabs s))) as [<-|Hne].
    - rewrite Z.mod_small by lia. lia.
    - rewrite <- (Z.mod_unique _ _ 1 (Z.of_nat index)) by lia. lia. }
  split.
  - unfold on_keydown. rewrite Htab. cbn [String.eqb Ascii.eqb Bool.eqb orb andb].
    now rewrite Hright, HnextTab.
  - unfold on_keydown.
    assert (Htabs : tabs (click nextTab (focus nextTab s)) = tabs s)
      by (now rewrite tabs_click).
    rewrite Htabs, HnextTab. cbn [String.eqb Ascii.eqb Bool.eqb orb andb].
    now rewrite Hleft, Htab.
Qed.

Lemma ArrowLeft_undoes_ArrowRight_last :
  exists nextTab,
    nth_error (tabs skills_tabs) 0 = Some nextTab
    /\ on_keydown 2 "ArrowRight" skills_tabs
       = (click nextTab (focus nextTab skills_tabs), true)
    /\ on_keydown 0 "ArrowLeft" (click nextTab (focus nextTab skills_tabs))
       = (click 2 (focus 2 (click nextTab (focus nextTab skills_tabs))), true).
Proof.
  apply (ArrowLeft_undoes_ArrowRight skills_tabs 2 2). reflexivity.
Defined.
